(** * The DynamoDB request transformer of typedorm

    A shallow embedding of
    [packages/core/classes/transformer/document-client-request-transformer.ts]:
    the class [DocumentClientRequestTransformer] with its five public
    operations [toDynamoGetItem], [toDynamoPutItem], [toDynamoUpdateItem],
    [toDynamoDeleteItem] and [toDynamoQueryItem].

    JavaScript objects used as dictionaries are finite maps from property
    names to values; an object whose key order is observed
    ([Object.keys(keyCondition)[0]]) is an association list.  A [throw]
    is the [Err] case of [Result].  The classes the transformer only
    calls ([Connection], [ExpressionBuilder], [BaseTransformer] and the
    helper functions) are interfaces, bound by [Context] in the section
    that holds the transformer. *)

From Stdlib Require Import ZArith Ascii String.
From stdpp Require Import base option list strings gmap fin_maps pretty.

Local Open Scope string_scope.
#[local] Set Warnings "-register-all".

(** ** JavaScript values *)

(** The values that entity attributes, key inputs and key conditions hold.
    Numbers are the integers. *)
Inductive JsValue : Type :=
| JUndefined
| JNull
| JBool (b : bool)
| JNum (n : Z)
| JStr (s : string)
| JArr (items : list JsValue).

(** A plain object used as a dictionary. *)
Abbreviation Obj := (gmap string JsValue).

(** [o[k]]: a missing property reads as [undefined]. *)
Definition prop (o : Obj) (k : string) : JsValue :=
  default JUndefined (o !! k).

(** ToBoolean, as applied by [if (v)], [!v] and [a && b]. *)
Definition truthy (v : JsValue) : bool :=
  match v with
  | JUndefined | JNull => false
  | JBool b => b
  | JNum n => negb (n =? 0)%Z
  | JStr s => negb (String.eqb s "")
  | JArr _ => true
  end.

(** [a ?? b] *)
Definition nullish (v : JsValue) : bool :=
  match v with
  | JUndefined | JNull => true
  | _ => false
  end.

Definition coalesce (a b : JsValue) : JsValue :=
  if nullish a then b else a.

(** [v.length] *)
Definition jsLength (v : JsValue) : JsValue :=
  match v with
  | JArr items => JNum (Z.of_nat (length items))
  | JStr s => JNum (Z.of_nat (String.length s))
  | _ => JUndefined
  end.

(** Modelled from the spec: the helper [isEmptyObject] of
    [helpers/is-empty-object] is not part of the source at hand; an object
    is empty when it has no own property. *)
Definition isEmptyObject (o : Obj) : bool := Nat.eqb (size o) 0.

(** [{...a, ...b}]: the properties of [b] win. *)
Definition spread (a b : Obj) : Obj := b ∪ a.

(** ** Errors *)

(** The source throws plain [Error]s; each constructor stands for one
    [throw] site and carries what the message interpolates. *)
Inductive TransformError : Type :=
| PrimaryKeyUnresolvedError
    (* 'Primary could not be resolved' *)
| MissingUniqueAttributeValueError (attr : string)
    (* 'All unique attributes are required, ...' *)
| NoMetadataError (entity : string)
    (* 'No metadata found for class ...' *)
| ImmutableUniqueAttributeError
    (* the empty message thrown for a unique attribute in an update body *)
| AutoGeneratedAttributeKeyCollisionError (attr : string)
    (* 'Failed to build update expression, key ... ' *)
| IndexNotFoundOnTableError (index table : string)
    (* '... but no such index exists on table ...' *)
| IndexNotFoundOnEntityError (index : string)
    (* '... but no such index exists on entity.' *)
| UnsupportedSortKeyConditionError (table : string)
    (* 'Table ... does not use composite key, thus querying a sort key
       is not allowed' *)
| UnresolvedKeyAttributeError (attr template : string)
    (* raised by the key template resolver *)
| CollaboratorError (message : string).
    (* anything else a collaborator throws *)

Inductive Result (A : Type) : Type :=
| Ok (a : A)
| Err (e : TransformError).
Arguments Ok {A} a.
Arguments Err {A} e.

#[global] Instance Result_ret : MRet Result := fun _ a => Ok a.
#[global] Instance Result_bind : MBind Result := fun _ _ f m =>
  match m with
  | Ok a => f a
  | Err e => Err e
  end.

Definition throw {A} (e : TransformError) : Result A := Err e.

(** ** Metadata *)

Inductive INDEX_TYPE := LSI | GSI.

Inductive QUERY_ORDER := ASC | DESC.

Inductive RETURN_VALUES := ALL_OLD | ALL_NEW | UPDATED_OLD | UPDATED_NEW | NONE.

(** Modelled from the spec: the auto-generation strategies (the enum is
    declared outside the source at hand); values are generated by a
    strategy such as a UUID or a timestamp. *)
Inductive AutoGenerateStrategy := UUID | TIMESTAMP.

Module IndexOptions.
Record t := mk {
    type : INDEX_TYPE;
    partitionKey : string;
    sortKey : string
}.
End IndexOptions.

(** Modelled from the spec: the table descriptor (class [Table] is declared
    outside the source at hand): a name, the partition-key attribute name,
    an optional sort-key attribute name and the secondary indexes by name.
    A table uses a composite key iff a sort key is declared. *)
Module Table.
Record t := mk {
    name : string;
    partitionKey : string;
    sortKey : option string;
    indexes : gmap string IndexOptions.t
}.

Definition getIndexByKey (table : t) (key : string) : option IndexOptions.t :=
    indexes table !! key.

Definition usesCompositeKey (table : t) : bool :=
    match sortKey table with Some _ => true | None => false end.
End Table.

(** The schema of an entity once resolved: the primary-key templates by
    table key attribute, and per index the templates by index key
    attribute. *)
Module Schema.
Record t := mk {
    primaryKey : gmap string string;
    indexes : option (gmap string (gmap string string))
}.
End Schema.

Module EntityMetadata.
Record t := mk {
    table : Table.t;
    name : string;
    schema : Schema.t
}.
End EntityMetadata.

(** Modelled from the spec: attribute metadata (the classes are declared
    outside the source at hand).  An auto-generated attribute has a
    strategy, and every read of its [value] slot draws a value by that
    strategy; a plain attribute has no strategy and no slot. *)
Module AttributeMetadata.
Record t := mk {
    name : string;
    strategy : option AutoGenerateStrategy
}.
End AttributeMetadata.

Module AutoGeneratedAttributeMetadata.
Record t := mk {
    name : string;
    strategy : AutoGenerateStrategy
}.
End AutoGeneratedAttributeMetadata.

(** An entity class is known by its name; an instance knows its class. *)
Abbreviation EntityTarget := string.

Module Entity.
Record t := mk {
    constructor : EntityTarget;
    fields : Obj
}.
End Entity.

(** ** Conditions and expressions *)

(** [new Condition().attributeNotExist(k)] *)
Inductive Condition : Type :=
| attributeNotExist (key : string).

(** The calls made on a [KeyCondition] object. *)
Inductive KeyCondition : Type :=
| equals (key : string) (value : JsValue)
| between (key : string) (value : JsValue)
| beginsWith (key : string) (value : JsValue)
| addBaseOperatorCondition (operator : string) (key : string) (value : JsValue)
| merge (partition sort : KeyCondition).

(** What the expression builder returns: the expression and its
    placeholder maps, spread verbatim into a request. *)
Record ExpressionPayload := {
  Expression : string;
  ExpressionAttributeNames : gmap string string;
  ExpressionAttributeValues : Obj
}.

(** ** Requests *)

Module GetItemInput.
Record t := mk { TableName : string; Key : Obj }.
End GetItemInput.

Module DeleteItemInput.
Record t := mk { TableName : string; Key : Obj }.
End DeleteItemInput.

Module PutItemInput.
Record t := mk {
    Item : Obj;
    TableName : string;
    Condition : option ExpressionPayload
}.
End PutItemInput.

(** [PutItemInput | PutItemInput[]] *)
Inductive PutResult : Type :=
| SinglePut (item : PutItemInput.t)
| PutList (items : list PutItemInput.t).

Module UpdateItemInput.
Record t := mk {
    TableName : string;
    Key : Obj;
    Update : ExpressionPayload;
    ReturnValues : RETURN_VALUES
}.
End UpdateItemInput.

Module QueryInput.
Record t := mk {
    TableName : string;
    IndexName : option string;
    Limit : option Z;
    ScanIndexForward : option bool;
    KeyConditionExpression : option ExpressionPayload
}.
End QueryInput.

(** ** Options *)

Record ManagerToDynamoPutItemOptions := {
  overwriteIfExists : bool
}.

Record EntityManagerUpdateOptions := {
  nestedKeySeparator : option string;
  returnValues : option RETURN_VALUES
}.

(** A key condition object; the order of its keys is the order of
    [Object.keys]. *)
Abbreviation KeyConditionOptions := (list (string * JsValue)).

(** An optional property of an options object: the object either has no
    such key, or has the key with a value, which may be [undefined]. *)
Inductive Property (A : Type) : Type :=
| Absent
| Present (value : option A).
Arguments Absent {A}.
Arguments Present {A} value.

(** [object.key]: [undefined] when the key is absent as when its value
    is. *)
Definition readProperty {A} (p : Property A) : option A :=
  match p with
  | Absent => None
  | Present value => value
  end.

Record ManagerToDynamoQueryItemsOptions := {
  keyConditionProperty : Property KeyConditionOptions;
  limitProperty : Property Z;
  orderByProperty : Property QUERY_ORDER
}.

(** [queryOptions.keyCondition], [queryOptions.limit] and
    [queryOptions.orderBy]. *)
Definition keyCondition (o : ManagerToDynamoQueryItemsOptions)
  : option KeyConditionOptions := readProperty (keyConditionProperty o).

Definition limit (o : ManagerToDynamoQueryItemsOptions) : option Z :=
  readProperty (limitProperty o).

Definition orderBy (o : ManagerToDynamoQueryItemsOptions) : option QUERY_ORDER :=
  readProperty (orderByProperty o).

(** The object literal that has exactly the keys given a value. *)
Definition given {A} (value : option A) : Property A :=
  match value with
  | Some v => Present (Some v)
  | None => Absent
  end.

Definition queryOptionsOf (keyCondition : option KeyConditionOptions)
    (limit : option Z) (orderBy : option QUERY_ORDER)
  : ManagerToDynamoQueryItemsOptions :=
  {| keyConditionProperty := given keyCondition;
     limitProperty := given limit;
     orderByProperty := given orderBy |}.

(** [keyCondition[k]] *)
Fixpoint kcProp (kc : KeyConditionOptions) (k : string) : JsValue :=
  match kc with
  | [] => JUndefined
  | (k', v) :: rest => if String.eqb k' k then v else kcProp rest k
  end.

(** [Object.keys(keyCondition)[0]]; indexing past the end gives
    [undefined], which reads back [undefined] as a property name. *)
Definition firstKey (kc : KeyConditionOptions) : string :=
  match kc with
  | [] => "undefined"
  | (k, _) :: _ => k
  end.

(** [isEmptyObject(queryOptions)]: the object has no own key; a key whose
    value is [undefined] counts. *)
Definition isEmptyQueryOptions (o : ManagerToDynamoQueryItemsOptions) : bool :=
  match keyConditionProperty o, limitProperty o, orderByProperty o with
  | Absent, Absent, Absent => true
  | _, _, _ => false
  end.

Definition isEmptyKeyCondition (kc : KeyConditionOptions) : bool :=
  match kc with [] => true | _ => false end.

(** ** Collaborators *)

(** The metadata registry the transformer reads through [this.connection]. *)
Class Connection := {
  getEntityByTarget : EntityTarget -> Result EntityMetadata.t;
  hasMetadata : EntityTarget -> bool;
  getUniqueAttributesForEntity : EntityTarget -> list AttributeMetadata.t;
  getAutoUpdateAttributes : EntityTarget -> list AutoGeneratedAttributeMetadata.t
}.

(** [this._expressionBuilder] *)
Class ExpressionBuilder := {
  buildConditionExpression : Condition -> ExpressionPayload;
  buildKeyConditionExpression : KeyCondition -> ExpressionPayload;
  buildUpdateExpression : Obj -> ExpressionPayload
}.

(** The methods inherited from [BaseTransformer]. *)
Class BaseTransformer := {
  getTableNameForEntity : EntityTarget -> Result string;
  getParsedPrimaryKey : Table.t -> gmap string string -> Obj -> Result Obj;
  toDynamoEntity : Entity.t -> Result Obj;
  getAffectedIndexesForAttributes : EntityTarget -> Obj -> string -> Result Obj
}.

(** The imported helper functions.  [parseKey] receives the template as
    looked up in the schema, which may be missing. *)
Class Helpers := {
  parseKey : option string -> Obj -> Result JsValue;
  getUniqueAttributePrimaryKey : Table.t -> string -> string -> JsValue -> Obj
}.

(** [attr.autoGenerateValue(strategy)] draws a fresh value (an
    identifier, the time) from the surroundings of the program, which are
    threaded as a state of type [World]. *)
Class Generator (World : Type) := {
  autoGenerateValue : AutoGenerateStrategy -> World -> JsValue * World
}.

(** An operation that may consult the generator and may throw. *)
Definition Op (World A : Type) : Type := World -> Result A * World.

Definition liftR {World A} (r : Result A) : Op World A := fun w => (r, w).

Definition bindOp {World A B} (m : Op World A) (f : A -> Op World B)
  : Op World B :=
  fun w => match m w with
           | (Ok a, w') => f a w'
           | (Err e, w') => (Err e, w')
           end.

#[global] Instance Op_ret {World} : MRet (Op World) := fun _ a => liftR (Ok a).
#[global] Instance Op_bind {World} : MBind (Op World) :=
  fun _ _ f m => bindOp m f.

Definition generate {World} `{Generator World} (s : AutoGenerateStrategy)
  : Op World JsValue :=
  fun w => let '(v, w') := autoGenerateValue s w in (Ok v, w').

(** [list.forEach(f)] and [list.map(f)] with a callback that may throw. *)
Fixpoint forEach {A} (f : A -> Result unit) (l : list A) : Result unit :=
  match l with
  | [] => mret tt
  | x :: rest => _ ← f x; forEach f rest
  end.

Fixpoint mapOp {World A B} (f : A -> Op World B) (l : list A)
  : Op World (list B) :=
  match l with
  | [] => mret []
  | x :: rest => y ← f x; ys ← mapOp f rest; mret (y :: ys)
  end.

(** ** The transformer *)

Section DocumentClientRequestTransformer.
Context {World : Type}.
Context `{connection : Connection} `{_expressionBuilder : ExpressionBuilder}.
Context `{base : BaseTransformer} `{helpers : Helpers}.
Context `{generator : Generator World}.

Definition toDynamoGetItem (entityClass : EntityTarget) (primaryKey : Obj)
  : Result GetItemInput.t :=
  metadata ← getEntityByTarget entityClass;
  tableName ← getTableNameForEntity entityClass;
  parsedPrimaryKey ← getParsedPrimaryKey
    (EntityMetadata.table metadata)
    (Schema.primaryKey (EntityMetadata.schema metadata))
    primaryKey;
  if isEmptyObject parsedPrimaryKey then throw PrimaryKeyUnresolvedError
  else mret (GetItemInput.mk tableName parsedPrimaryKey).

Definition toDynamoDeleteItem (entityClass : EntityTarget) (primaryKey : Obj)
  : Result DeleteItemInput.t :=
  metadata ← getEntityByTarget entityClass;
  let tableName := Table.name (EntityMetadata.table metadata) in
  parsedPrimaryKey ← getParsedPrimaryKey
    (EntityMetadata.table metadata)
    (Schema.primaryKey (EntityMetadata.schema metadata))
    primaryKey;
  if isEmptyObject parsedPrimaryKey then throw PrimaryKeyUnresolvedError
  else mret (DeleteItemInput.mk tableName parsedPrimaryKey).

(** [(attr as AutoGeneratedAttributeMetadata)?.value]: the slot of an
    auto-generated attribute, read afresh; [undefined] on a plain
    attribute. *)
Definition readValue (attr : AttributeMetadata.t) : Op World JsValue :=
  match AttributeMetadata.strategy attr with
  | Some strategy => generate strategy
  | None => mret JUndefined
  end.

(** The value of a unique attribute: the auto-generated slot, else the
    entity's own field. *)
Definition uniqueAttributeValue (entity : Entity.t) (attr : AttributeMetadata.t)
  : Op World JsValue :=
  slot ← readValue attr;
  mret (coalesce slot (prop (Entity.fields entity) (AttributeMetadata.name attr))).

(** The callback of [uniqueAttributes.map]. *)
Definition uniqueAttributePutItem (table : Table.t) (name : string)
    (uniqueRecordConditionExpression : ExpressionPayload)
    (entity : Entity.t) (attr : AttributeMetadata.t) : Op World PutItemInput.t :=
  attributeValue ← uniqueAttributeValue entity attr;
  if negb (truthy attributeValue)
  then liftR (throw (MissingUniqueAttributeValueError (AttributeMetadata.name attr)))
  else
    let uniqueItemPrimaryKey :=
      getUniqueAttributePrimaryKey table name (AttributeMetadata.name attr)
                                   attributeValue in
    mret (PutItemInput.mk uniqueItemPrimaryKey (Table.name table)
                          (Some uniqueRecordConditionExpression)).

(** [options?.overwriteIfExists] *)
Definition overwrites (options : option ManagerToDynamoPutItemOptions) : bool :=
  match options with
  | Some o => overwriteIfExists o
  | None => false
  end.

Definition toDynamoPutItem (entity : Entity.t)
    (options : option ManagerToDynamoPutItemOptions) : Op World PutResult :=
  metadata ← liftR (getEntityByTarget (Entity.constructor entity));
  let table := EntityMetadata.table metadata in
  let name := EntityMetadata.name metadata in
  let uniqueAttributes := getUniqueAttributesForEntity (Entity.constructor entity) in
  dynamoEntity ← liftR (toDynamoEntity entity);
  let uniqueRecordConditionExpression :=
    buildConditionExpression (attributeNotExist (Table.partitionKey table)) in
  uniqueAttributePutItems ←
    mapOp (uniqueAttributePutItem table name uniqueRecordConditionExpression entity)
          uniqueAttributes;
  let dynamoPutItem :=
    PutItemInput.mk dynamoEntity (Table.name table)
      (if negb (overwrites options)
       then Some uniqueRecordConditionExpression else None) in
  match uniqueAttributePutItems with
  | [] => mret (SinglePut dynamoPutItem)
  | _ :: _ => mret (PutList (dynamoPutItem :: uniqueAttributePutItems))
  end.

(** The callback of [getUniqueAttributesForEntity(...).forEach]: a key
    that is marked as unique can not be updated. *)
Definition rejectUniqueAttribute (body : Obj) (attr : AttributeMetadata.t)
  : Result unit :=
  if truthy (prop body (AttributeMetadata.name attr))
  then throw ImmutableUniqueAttributeError
  else mret tt.

(** [autoUpdateAttributes.reduce(..., {})]: checks that an auto-update
    attribute is not referenced by the primary key, then stores its
    generated value under its name in the accumulator. *)
Fixpoint formatAutoUpdateAttributes (primaryKey : Obj)
    (autoUpdateAttributes : list AutoGeneratedAttributeMetadata.t)
    (acc : Obj) : Op World Obj :=
  match autoUpdateAttributes with
  | [] => mret acc
  | attr :: rest =>
      let name := AutoGeneratedAttributeMetadata.name attr in
      if truthy (prop primaryKey name)
      then liftR (throw (AutoGeneratedAttributeKeyCollisionError name))
      else
        v ← generate (AutoGeneratedAttributeMetadata.strategy attr);
        formatAutoUpdateAttributes primaryKey rest (<[name := v]> acc)
  end.

Definition toDynamoUpdateItem (entityClass : EntityTarget) (primaryKey : Obj)
    (body : Obj) (options : option EntityManagerUpdateOptions)
  : Op World UpdateItemInput.t :=
  let separator := default "." (options ≫= nestedKeySeparator) in
  let returnValues := default ALL_NEW (options ≫= returnValues) in
  if negb (hasMetadata entityClass)
  then liftR (throw (NoMetadataError entityClass))
  else
    metadata ← liftR (getEntityByTarget entityClass);
    let tableName := Table.name (EntityMetadata.table metadata) in
    parsedPrimaryKey ← liftR (getParsedPrimaryKey
      (EntityMetadata.table metadata)
      (Schema.primaryKey (EntityMetadata.schema metadata))
      primaryKey);
    if isEmptyObject parsedPrimaryKey
    then liftR (throw PrimaryKeyUnresolvedError)
    else
      _ ← liftR (forEach (rejectUniqueAttribute body)
                         (getUniqueAttributesForEntity entityClass));
      let autoUpdateAttributes := getAutoUpdateAttributes entityClass in
      formattedAutoUpdateAttributes ←
        formatAutoUpdateAttributes primaryKey autoUpdateAttributes ∅;
      let attributesToUpdate := spread body formattedAutoUpdateAttributes in
      affectedIndexes ← liftR (getAffectedIndexesForAttributes
                                  entityClass attributesToUpdate separator);
      mret (UpdateItemInput.mk tableName parsedPrimaryKey
              (buildUpdateExpression (spread attributesToUpdate affectedIndexes))
              returnValues).

(** [partitionKeyAttributes.queryIndex]; by its type a string when
    present. *)
Definition queryIndex (partitionKeyAttributes : Obj) : option string :=
  match partitionKeyAttributes !! "queryIndex" with
  | Some (JStr s) => Some s
  | _ => None
  end.

(** The index asked for, when [if (partitionKeyAttributes.queryIndex)]
    passes. *)
Definition requestedIndex (partitionKeyAttributes : Obj) : option string :=
  match queryIndex partitionKeyAttributes with
  | Some s => if truthy (JStr s) then Some s else None
  | None => None
  end.

(** [schema.indexes && schema.indexes[queryIndex]] *)
Definition matchingIndexOnEntity (schema : Schema.t) (index : string)
  : option (gmap string string) :=
  idxs ← Schema.indexes schema; idxs !! index.

(** Lines 279-299: the index to query, if one is asked for. *)
Definition resolveIndexToQuery (table : Table.t) (schema : Schema.t)
    (partitionKeyAttributes : Obj) : Result (option IndexOptions.t) :=
  match requestedIndex partitionKeyAttributes with
  | Some q =>
      match Table.getIndexByKey table q with
      | None => throw (IndexNotFoundOnTableError q (Table.name table))
      | Some matchingIndex =>
          match matchingIndexOnEntity schema q with
          | None => throw (IndexNotFoundOnEntityError q)
          | Some _ => mret (Some matchingIndex)
          end
      end
  | None => mret None
  end.

Record ParsedPartitionKey := {
  pk_name : string;
  pk_value : JsValue
}.

(** [!indexToQuery || indexToQuery?.type === INDEX_TYPE.LSI] *)
Definition queriesTablePartition (indexToQuery : option IndexOptions.t) : bool :=
  match indexToQuery with
  | None => true
  | Some idx => match IndexOptions.type idx with LSI => true | GSI => false end
  end.

(** Lines 301-319: the partition key of the query. *)
Definition resolvePartitionKey (table : Table.t) (schema : Schema.t)
    (indexToQuery : option IndexOptions.t) (partitionKeyAttributes : Obj)
  : Result ParsedPartitionKey :=
  match indexToQuery with
  | Some idx =>
      if queriesTablePartition indexToQuery
      then
        v ← parseKey (Schema.primaryKey schema !! Table.partitionKey table)
                     partitionKeyAttributes;
        mret {| pk_name := Table.partitionKey table; pk_value := v |}
      else
        v ← parseKey
              (q ← queryIndex partitionKeyAttributes;
               templates ← matchingIndexOnEntity schema q;
               templates !! IndexOptions.partitionKey idx)
              partitionKeyAttributes;
        mret {| pk_name := IndexOptions.partitionKey idx; pk_value := v |}
  | None =>
      v ← parseKey (Schema.primaryKey schema !! Table.partitionKey table)
                   partitionKeyAttributes;
      mret {| pk_name := Table.partitionKey table; pk_value := v |}
  end.

(** Lines 336-347: the sort key name.  [table.usesCompositeKey()] holds
    exactly when [table.sortKey] is declared. *)
Definition resolveSortKeyName (table : Table.t)
    (indexToQuery : option IndexOptions.t) : Result string :=
  match indexToQuery with
  | None =>
      match Table.sortKey table with
      | None => throw (UnsupportedSortKeyConditionError (Table.name table))
      | Some sk => mret sk
      end
  | Some idx => mret (IndexOptions.sortKey idx)
  end.

(** Lines 361-376: the one sort key clause built from a key condition. *)
Definition sortKeyCondition (sortKeyName : string) (kc : KeyConditionOptions)
  : KeyCondition :=
  if truthy (kcProp kc "BETWEEN") && truthy (jsLength (kcProp kc "BETWEEN"))
  then between sortKeyName (kcProp kc "BETWEEN")
  else if truthy (kcProp kc "BEGINS_WITH")
  then beginsWith sortKeyName (kcProp kc "BEGINS_WITH")
  else
    let operator := firstKey kc in
    addBaseOperatorCondition operator sortKeyName (kcProp kc operator).

(** [!order || order === QUERY_ORDER.ASC] *)
Definition scanIndexForward (order : option QUERY_ORDER) : bool :=
  match order with
  | None | Some ASC => true
  | Some DESC => false
  end.

(** [!queryOptions || isEmptyObject(queryOptions)] *)
Definition noQueryOptions (queryOptions : option ManagerToDynamoQueryItemsOptions)
  : bool :=
  match queryOptions with
  | None => true
  | Some o => isEmptyQueryOptions o
  end.

Definition toDynamoQueryItem (entityClass : EntityTarget)
    (partitionKeyAttributes : Obj)
    (queryOptions : option ManagerToDynamoQueryItemsOptions)
  : Result QueryInput.t :=
  metadata ← getEntityByTarget entityClass;
  let table := EntityMetadata.table metadata in
  let schema := EntityMetadata.schema metadata in
  indexToQuery ← resolveIndexToQuery table schema partitionKeyAttributes;
  parsedPartitionKey ←
    resolvePartitionKey table schema indexToQuery partitionKeyAttributes;
  let partitionKeyCondition :=
    equals (pk_name parsedPartitionKey) (pk_value parsedPartitionKey) in
  match queryOptions with
  | Some options =>
      if isEmptyQueryOptions options
      then
        mret (QueryInput.mk (Table.name table)
                (queryIndex partitionKeyAttributes) None None
                (Some (buildKeyConditionExpression partitionKeyCondition)))
      else
        parsedSortKeyName ← resolveSortKeyName table indexToQuery;
        let queryInputParams kce :=
          QueryInput.mk (Table.name table)
            (queryIndex partitionKeyAttributes)
            (limit options)
            (Some (scanIndexForward (orderBy options)))
            kce in
        match keyCondition options with
        | Some kc =>
            if isEmptyKeyCondition kc
            then mret (queryInputParams None)
            else
              let keyConditionExpression :=
                buildKeyConditionExpression
                  (merge partitionKeyCondition
                         (sortKeyCondition parsedSortKeyName kc)) in
              mret (queryInputParams (Some keyConditionExpression))
        | None => mret (queryInputParams None)
        end
  | None =>
      mret (QueryInput.mk (Table.name table)
              (queryIndex partitionKeyAttributes) None None
              (Some (buildKeyConditionExpression partitionKeyCondition)))
  end.

End DocumentClientRequestTransformer.

(** ** The collaborators as the specification describes them

    The source at hand holds the transformer only.  The definitions of
    this module stand in for the collaborators where a statement needs
    concrete ones (the User scenario, and the inputs at which general
    statements are exercised). *)
Module SpecModel.

(** Modelled from the spec: what a key template substitutes for a token.
    A string or a number (coerced to a string) resolves; a missing or
    undefined attribute and the empty string do not, nor does any value the
    specification gives no coercion for. *)
Definition tokenValue (template : string) (dict : Obj) (name : string)
  : Result string :=
  match prop dict name with
  | JStr s =>
      if String.eqb s "" then throw (UnresolvedKeyAttributeError name template)
      else mret s
  | JNum n => mret (pretty n)
  | _ => throw (UnresolvedKeyAttributeError name template)
  end.

(** Modelled from the spec: the key template resolver [parseKey] of
    [helpers/parse-key]: every [{{name}}] token of the template is replaced
    by the value of the attribute [name] of the source object, left to
    right.  [token] is [Some n] while the scan is inside a token whose name
    so far is [n]. *)
Fixpoint resolveTemplate (template : string) (dict : Obj)
    (token : option string) (s : string) : Result string :=
  match token with
  | None =>
      match s with
      | EmptyString => mret EmptyString
      | String "{"%char (String "{"%char rest) => resolveTemplate template dict (Some "") rest
      | String c rest =>
          r ← resolveTemplate template dict None rest; mret (String c r)
      end
  | Some name =>
      match s with
      | EmptyString => mret ("{{" ++ name)
      | String "}"%char (String "}"%char rest) =>
          v ← tokenValue template dict name;
          r ← resolveTemplate template dict None rest;
          mret (v ++ r)
      | String c rest =>
          resolveTemplate template dict (Some (name ++ String c EmptyString)) rest
      end
  end.

Definition parseKey (template : option string) (dict : Obj) : Result JsValue :=
  match template with
  | Some t => s ← resolveTemplate t dict None t; mret (JStr s)
  | None => throw (CollaboratorError "no key template")
  end.

(** Modelled from the spec: the key parser [getParsedPrimaryKey] of
    [BaseTransformer]: the partition-key template is resolved
    unconditionally, the sort-key template only when the table declares a
    sort key; without a matching schema the result is empty, not an
    error. *)
Definition getParsedPrimaryKey (table : Table.t) (schema : gmap string string)
    (primaryKey : Obj) : Result Obj :=
  match schema !! Table.partitionKey table with
  | None => mret ∅
  | Some template =>
      pk ← parseKey (Some template) primaryKey;
      match Table.sortKey table with
      | None => mret {[ Table.partitionKey table := pk ]}
      | Some sortKey =>
          sk ← parseKey (schema !! sortKey) primaryKey;
          mret (<[ sortKey := sk ]> {[ Table.partitionKey table := pk ]})
      end
  end.

(** Modelled from the spec: the key of a shadow item, a function of the
    table, the entity name, the attribute name and the attribute value
    (which function, the specification leaves open; this one joins them). *)
Definition uniqueKeyText (name attrName : string) (value : JsValue) : JsValue :=
  match value with
  | JStr s => JStr (name ++ "." ++ attrName ++ "#" ++ s)
  | JNum n => JStr (name ++ "." ++ attrName ++ "#" ++ pretty n)
  | _ => JStr (name ++ "." ++ attrName ++ "#")
  end.

Definition getUniqueAttributePrimaryKey (table : Table.t) (name attrName : string)
    (value : JsValue) : Obj :=
  let key := uniqueKeyText name attrName value in
  match Table.sortKey table with
  | None => {[ Table.partitionKey table := key ]}
  | Some sortKey => <[ sortKey := key ]> {[ Table.partitionKey table := key ]}
  end.

Definition helpers : Helpers :=
  Build_Helpers parseKey getUniqueAttributePrimaryKey.

(** Modelled from the spec: the schema registry behind [Connection]: per
    entity class its metadata, its unique attributes and its auto-update
    attributes; immutable once loaded. *)
Record Registered := {
  metadata : EntityMetadata.t;
  uniqueAttributes : list AttributeMetadata.t;
  autoUpdateAttributes : list AutoGeneratedAttributeMetadata.t
}.

Definition connection (registry : gmap string Registered) : Connection := {|
  getEntityByTarget target :=
    match registry !! target with
    | Some r => Ok (metadata r)
    | None => Err (NoMetadataError target)
    end;
  hasMetadata target :=
    match registry !! target with Some _ => true | None => false end;
  getUniqueAttributesForEntity target :=
    match registry !! target with Some r => uniqueAttributes r | None => [] end;
  getAutoUpdateAttributes target :=
    match registry !! target with Some r => autoUpdateAttributes r | None => [] end
|}.

(** Modelled from the spec: the methods of [BaseTransformer] over a
    registry.  The literal item of an entity is its own fields; the
    entities registered below declare no index whose template mentions an
    updated attribute, so an update affects no index attribute. *)
Definition base (registry : gmap string Registered) : BaseTransformer :=
  Build_BaseTransformer
    (fun target =>
       match registry !! target with
       | Some r => Ok (Table.name (EntityMetadata.table (metadata r)))
       | None => Err (NoMetadataError target)
       end)
    getParsedPrimaryKey
    (fun entity => Ok (Entity.fields entity))
    (fun _ _ _ => Ok ∅).

(** Modelled from the spec: an expression builder returning the expression
    with its placeholder maps. *)
Fixpoint keyConditionText (c : KeyCondition) : string :=
  match c with
  | equals k _ => "#" ++ k ++ " = :" ++ k
  | between k _ => "#" ++ k ++ " BETWEEN :" ++ k ++ "_start AND :" ++ k ++ "_end"
  | beginsWith k _ => "begins_with(#" ++ k ++ ", :" ++ k ++ ")"
  | addBaseOperatorCondition op k _ => "#" ++ k ++ " " ++ op ++ " :" ++ k
  | merge a b => keyConditionText a ++ " AND " ++ keyConditionText b
  end.

Fixpoint keyConditionNames (c : KeyCondition) : gmap string string :=
  match c with
  | equals k _ | between k _ | beginsWith k _
  | addBaseOperatorCondition _ k _ => {[ "#" ++ k := k ]}
  | merge a b => keyConditionNames b ∪ keyConditionNames a
  end.

Fixpoint keyConditionValues (c : KeyCondition) : Obj :=
  match c with
  | equals k v | beginsWith k v
  | addBaseOperatorCondition _ k v => {[ ":" ++ k := v ]}
  | between k (JArr [a; b]) => <[ ":" ++ k ++ "_end" := b ]> {[ ":" ++ k ++ "_start" := a ]}
  | between k v => {[ ":" ++ k := v ]}
  | merge a b => keyConditionValues b ∪ keyConditionValues a
  end.

Definition expressionBuilder : ExpressionBuilder := {|
  buildConditionExpression c :=
    match c with
    | attributeNotExist k =>
        {| Expression := "attribute_not_exists(#" ++ k ++ ")";
           ExpressionAttributeNames := {[ "#" ++ k := k ]};
           ExpressionAttributeValues := ∅ |}
    end;
  buildKeyConditionExpression c :=
    {| Expression := keyConditionText c;
       ExpressionAttributeNames := keyConditionNames c;
       ExpressionAttributeValues := keyConditionValues c |};
  buildUpdateExpression attrs :=
    {| Expression := "SET";
       ExpressionAttributeNames := ∅;
       ExpressionAttributeValues := attrs |}
|}.

(** Modelled from the spec: a generator whose surroundings are a clock; a
    timestamp reads the clock, an identifier is drawn from it, and the
    clock moves on. *)
Definition clock : Generator Z := {|
  autoGenerateValue strategy now :=
    match strategy with
    | TIMESTAMP => (JNum now, (now + 1)%Z)
    | UUID => (JStr ("uuid-" ++ pretty now), (now + 1)%Z)
    end
|}.

End SpecModel.

(** ** The registered entities *)

(** The entities the properties are exercised on: [User], the entity of
    the repository, and three more on the same registry. *)
Module Scenario.

(** Modelled from the spec: the table of the User scenario (its module
    is outside the source at hand): partition key [PK], sort key [SK] and
    the global index [GSI1]; the local index [LSI1] serves the entity
    [Member]. *)
Definition table : Table.t :=
  Table.mk "test-table" "PK" (Some "SK")
    (<[ "GSI1" := IndexOptions.mk GSI "GSI1PK" "GSI1SK" ]>
       {[ "LSI1" := IndexOptions.mk LSI "PK" "LSI1SK" ]}).

(** A table with a partition key only. *)
Definition flatTable : Table.t :=
  Table.mk "flat-table" "PK" None ∅.

(** Modelled from the spec: the metadata the registry holds for
    [@Entity({name: 'user', primaryKey: {...}, indexes: {GSI1: {...}}})]
    (the decorator that resolves it is outside the source at hand): the
    templates of the declaration, filed under the key attribute names of
    the table and of the index. *)
Definition User : SpecModel.Registered := {|
  SpecModel.metadata :=
    EntityMetadata.mk table "user"
      (Schema.mk
         (<[ "SK" := "USER#{{id}}" ]> {[ "PK" := "USER#{{id}}" ]})
         (Some {[ "GSI1" :=
                    <[ "GSI1SK" := "USER#{{name}}" ]>
                      {[ "GSI1PK" := "USER#STATUS#{{status}}" ]} ]}));
  SpecModel.uniqueAttributes := [];
  SpecModel.autoUpdateAttributes := []
|}.

(** A user whose [email] is unique and whose [updatedAt] is refreshed on
    every update; it also declares templates for the local index. *)
Definition Member : SpecModel.Registered := {|
  SpecModel.metadata :=
    EntityMetadata.mk table "member"
      (Schema.mk
         (<[ "SK" := "MEMBER#{{id}}" ]> {[ "PK" := "MEMBER#{{id}}" ]})
         (Some {[ "LSI1" :=
                    <[ "LSI1SK" := "MEMBER#{{name}}" ]>
                      {[ "PK" := "LOCAL#{{id}}" ]} ]}));
  SpecModel.uniqueAttributes := [AttributeMetadata.mk "email" None];
  SpecModel.autoUpdateAttributes :=
    [AutoGeneratedAttributeMetadata.mk "updatedAt" TIMESTAMP]
|}.

(** An entity keyed by the time of its last update, which is also
    refreshed on every update. *)
Definition Reading : SpecModel.Registered := {|
  SpecModel.metadata :=
    EntityMetadata.mk table "reading"
      (Schema.mk
         (<[ "SK" := "AT#{{updatedAt}}" ]> {[ "PK" := "SENSOR#{{id}}" ]})
         None);
  SpecModel.uniqueAttributes := [];
  SpecModel.autoUpdateAttributes :=
    [AutoGeneratedAttributeMetadata.mk "updatedAt" TIMESTAMP]
|}.

(** An entity on the table without a sort key. *)
Definition Counter : SpecModel.Registered := {|
  SpecModel.metadata :=
    EntityMetadata.mk flatTable "counter"
      (Schema.mk {[ "PK" := "COUNTER#{{id}}" ]} None);
  SpecModel.uniqueAttributes := [];
  SpecModel.autoUpdateAttributes := []
|}.

Definition registry : gmap string SpecModel.Registered :=
  <[ "User" := User ]>
    (<[ "Member" := Member ]>
       (<[ "Reading" := Reading ]> {[ "Counter" := Counter ]})).

Definition connection : Connection := SpecModel.connection registry.
Definition base : BaseTransformer := SpecModel.base registry.


(** The transformer over this registry and the collaborators of the
    specification; the generator's surroundings are a clock. *)
Definition get : EntityTarget -> Obj -> Result GetItemInput.t :=
  toDynamoGetItem (connection := connection) (base := base).

Definition delete : EntityTarget -> Obj -> Result DeleteItemInput.t :=
  toDynamoDeleteItem (connection := connection) (base := base).

Definition put
  : Entity.t -> option ManagerToDynamoPutItemOptions -> Op Z PutResult :=
  toDynamoPutItem (connection := connection)
    (_expressionBuilder := SpecModel.expressionBuilder)
    (base := base) (helpers := SpecModel.helpers)
    (generator := SpecModel.clock).

Definition update
  : EntityTarget -> Obj -> Obj -> option EntityManagerUpdateOptions ->
    Op Z UpdateItemInput.t :=
  toDynamoUpdateItem (connection := connection)
    (_expressionBuilder := SpecModel.expressionBuilder)
    (base := base) (generator := SpecModel.clock).

Definition query
  : EntityTarget -> Obj -> option ManagerToDynamoQueryItemsOptions ->
    Result QueryInput.t :=
  toDynamoQueryItem (connection := connection)
    (_expressionBuilder := SpecModel.expressionBuilder)
    (helpers := SpecModel.helpers).

(** Inputs. *)

(** [{id: "1"}] *)
Definition idOne : Obj := {[ "id" := JStr "1" ]}.

(** [{status: "active", queryIndex: "GSI1"}] *)
Definition activeOnGSI1 : Obj :=
  <[ "queryIndex" := JStr "GSI1" ]> {[ "status" := JStr "active" ]}.

(** [{id: "1", queryIndex: "LSI1"}] *)
Definition idOneOnLSI1 : Obj :=
  <[ "queryIndex" := JStr "LSI1" ]> {[ "id" := JStr "1" ]}.

(** A member with an e-mail address. *)
Definition ann : Entity.t :=
  Entity.mk "Member"
    (<[ "email" := JStr "ann@example.com" ]>
       (<[ "name" := JStr "Ann" ]> {[ "id" := JStr "1" ]})).

(** A user, whose class has no unique attribute. *)
Definition bob : Entity.t :=
  Entity.mk "User"
    (<[ "status" := JStr "active" ]>
       (<[ "name" := JStr "Bob" ]> {[ "id" := JStr "2" ]})).

(** [{email: ""}]: the unique attribute is set to the empty string. *)
Definition clearEmail : Obj := {[ "email" := JStr "" ]}.

(** [{name: "Anna"}] *)
Definition rename : Obj := {[ "name" := JStr "Anna" ]}.

(** [{id: "7", updatedAt: 0}]: the reading taken at time zero. *)
Definition readingAtZero : Obj :=
  <[ "updatedAt" := JNum 0 ]> {[ "id" := JStr "7" ]}.

(** [{value: 21}] *)
Definition newValue : Obj := {[ "value" := JNum 21 ]}.

(** [{limit: 10}] *)
Definition limitOnly : ManagerToDynamoQueryItemsOptions :=
  queryOptionsOf None (Some 10%Z) None.

(** [{EQ: "a", BEGINS_WITH: ""}] *)
Definition eqAndEmptyPrefix : KeyConditionOptions :=
  [("EQ", JStr "a"); ("BEGINS_WITH", JStr "")].

(** [{keyCondition: {EQ: "a", BEGINS_WITH: ""}}] *)
Definition twoOperators : ManagerToDynamoQueryItemsOptions :=
  queryOptionsOf (Some eqAndEmptyPrefix) None None.

(** [{BEGINS_WITH: "USER#A", GT: "USER#B", BETWEEN: ["USER#A", "USER#C"]}] *)
Definition threeOperators : KeyConditionOptions :=
  [("BEGINS_WITH", JStr "USER#A"); ("GT", JStr "USER#B");
   ("BETWEEN", JArr [JStr "USER#A"; JStr "USER#C"])].

(** More entities, on a registry that extends the first. *)

(** An entity whose schema holds no key template yet. *)
Definition Draft : SpecModel.Registered := {|
  SpecModel.metadata := EntityMetadata.mk table "draft" (Schema.mk ∅ None);
  SpecModel.uniqueAttributes := [];
  SpecModel.autoUpdateAttributes := []
|}.

(** A badge with two unique attributes: [code], whose value is
    auto-generated, and [serial], which the entity has to carry. *)
Definition Badge : SpecModel.Registered := {|
  SpecModel.metadata :=
    EntityMetadata.mk table "badge"
      (Schema.mk
         (<[ "SK" := "BADGE#{{id}}" ]> {[ "PK" := "BADGE#{{id}}" ]}) None);
  SpecModel.uniqueAttributes :=
    [AttributeMetadata.mk "code" (Some UUID);
     AttributeMetadata.mk "serial" None];
  SpecModel.autoUpdateAttributes := []
|}.

(** A token whose unique [code] is auto-generated. *)
Definition Token : SpecModel.Registered := {|
  SpecModel.metadata :=
    EntityMetadata.mk table "token"
      (Schema.mk
         (<[ "SK" := "TOKEN#{{id}}" ]> {[ "PK" := "TOKEN#{{id}}" ]}) None);
  SpecModel.uniqueAttributes := [AttributeMetadata.mk "code" (Some UUID)];
  SpecModel.autoUpdateAttributes := []
|}.

(** A ticket whose unique [number] is auto-generated from the clock, and
    so is zero when the clock is. *)
Definition Ticket : SpecModel.Registered := {|
  SpecModel.metadata :=
    EntityMetadata.mk table "ticket"
      (Schema.mk
         (<[ "SK" := "TICKET#{{id}}" ]> {[ "PK" := "TICKET#{{id}}" ]}) None);
  SpecModel.uniqueAttributes := [AttributeMetadata.mk "number" (Some TIMESTAMP)];
  SpecModel.autoUpdateAttributes := []
|}.

(** An entity with two auto-update attributes, a revision identifier and
    the time of the update, keyed by that time. *)
Definition Audit : SpecModel.Registered := {|
  SpecModel.metadata :=
    EntityMetadata.mk table "audit"
      (Schema.mk
         (<[ "SK" := "AT#{{updatedAt}}" ]> {[ "PK" := "AUDIT#{{id}}" ]}) None);
  SpecModel.uniqueAttributes := [AttributeMetadata.mk "email" None];
  SpecModel.autoUpdateAttributes :=
    [AutoGeneratedAttributeMetadata.mk "revision" UUID;
     AutoGeneratedAttributeMetadata.mk "updatedAt" TIMESTAMP]
|}.

(** An entity that declares the index [GSI2], which its table lacks, and
    not the index [GSI1], which its table has. *)
Definition Stray : SpecModel.Registered := {|
  SpecModel.metadata :=
    EntityMetadata.mk table "stray"
      (Schema.mk
         (<[ "SK" := "STRAY#{{id}}" ]> {[ "PK" := "STRAY#{{id}}" ]})
         (Some {[ "GSI2" := {[ "GSI2PK" := "STRAY#{{kind}}" ]} ]}));
  SpecModel.uniqueAttributes := [];
  SpecModel.autoUpdateAttributes := []
|}.

Definition catalog : gmap string SpecModel.Registered :=
  <[ "Draft" := Draft ]>
    (<[ "Badge" := Badge ]>
       (<[ "Token" := Token ]>
          (<[ "Ticket" := Ticket ]>
             (<[ "Audit" := Audit ]> (<[ "Stray" := Stray ]> registry))))).

Definition catalogConnection : Connection := SpecModel.connection catalog.
Definition catalogBase : BaseTransformer := SpecModel.base catalog.

(** The transformer over the extended registry. *)
Definition catalogGet : EntityTarget -> Obj -> Result GetItemInput.t :=
  toDynamoGetItem (connection := catalogConnection) (base := catalogBase).

Definition catalogDelete : EntityTarget -> Obj -> Result DeleteItemInput.t :=
  toDynamoDeleteItem (connection := catalogConnection) (base := catalogBase).

Definition catalogPut
  : Entity.t -> option ManagerToDynamoPutItemOptions -> Op Z PutResult :=
  toDynamoPutItem (connection := catalogConnection)
    (_expressionBuilder := SpecModel.expressionBuilder)
    (base := catalogBase) (helpers := SpecModel.helpers)
    (generator := SpecModel.clock).

Definition catalogUpdate
  : EntityTarget -> Obj -> Obj -> option EntityManagerUpdateOptions ->
    Op Z UpdateItemInput.t :=
  toDynamoUpdateItem (connection := catalogConnection)
    (_expressionBuilder := SpecModel.expressionBuilder)
    (base := catalogBase) (generator := SpecModel.clock).

Definition catalogQuery
  : EntityTarget -> Obj -> option ManagerToDynamoQueryItemsOptions ->
    Result QueryInput.t :=
  toDynamoQueryItem (connection := catalogConnection)
    (_expressionBuilder := SpecModel.expressionBuilder)
    (helpers := SpecModel.helpers).

(** A badge that carries a code of its own and no serial. *)
Definition badgeWithoutSerial : Entity.t :=
  Entity.mk "Badge" (<[ "code" := JStr "mine" ]> {[ "id" := JStr "1" ]}).

(** Two tokens that differ in every field. *)
Definition tokenOne : Entity.t :=
  Entity.mk "Token" (<[ "code" := JStr "first" ]> {[ "id" := JStr "1" ]}).


(** A ticket that carries a number of its own. *)
Definition ticketSeven : Entity.t :=
  Entity.mk "Ticket" (<[ "number" := JNum 7 ]> {[ "id" := JStr "1" ]}).

(** [{id: "1", updatedAt: 1700000000}] *)
Definition auditKey : Obj :=
  <[ "updatedAt" := JNum 1700000000 ]> {[ "id" := JStr "1" ]}.

(** [{email: "new@example.com"}] *)
Definition newEmail : Obj := {[ "email" := JStr "new@example.com" ]}.

(** [{name: "Anna", updatedAt: 1}]: the body sets an auto-update
    attribute itself. *)
Definition renameAndStamp : Obj :=
  <[ "updatedAt" := JNum 1 ]> {[ "name" := JStr "Anna" ]}.

(** [{id: "1", queryIndex: ""}] *)
Definition idOneOnNoIndex : Obj :=
  <[ "queryIndex" := JStr "" ]> {[ "id" := JStr "1" ]}.

(** [{kind: "x", queryIndex: "GSI2"}] and [{kind: "x", queryIndex: "GSI1"}] *)
Definition kindOnGSI2 : Obj :=
  <[ "queryIndex" := JStr "GSI2" ]> {[ "kind" := JStr "x" ]}.

Definition kindOnGSI1 : Obj :=
  <[ "queryIndex" := JStr "GSI1" ]> {[ "kind" := JStr "x" ]}.

(** [{limit: 10, orderBy: DESC}] *)
Definition lastTen : ManagerToDynamoQueryItemsOptions :=
  queryOptionsOf None (Some 10%Z) (Some DESC).

(** [{limit: undefined}]: the key is there, its value is not. *)
Definition undefinedLimit : ManagerToDynamoQueryItemsOptions :=
  {| keyConditionProperty := Absent;
     limitProperty := Present None;
     orderByProperty := Absent |}.

(** [{keyCondition: {BEGINS_WITH: "USER#A"}}] *)
Definition prefixA : ManagerToDynamoQueryItemsOptions :=
  queryOptionsOf (Some [("BEGINS_WITH", JStr "USER#A")]) None None.

End Scenario.

(** ** Reading results *)

(** The requests of a put, the entity's own first. *)
Definition putItems (r : PutResult) : list PutItemInput.t :=
  match r with
  | SinglePut item => [item]
  | PutList items => items
  end.

Definition mainPut (r : PutResult) : option PutItemInput.t := head (putItems r).

Definition shadowPuts (r : PutResult) : list PutItemInput.t := tail (putItems r).

(** The partition part of a key condition handed to the builder. *)
Definition partitionCondition (c : KeyCondition) : KeyCondition :=
  match c with
  | merge partition _ => partition
  | _ => c
  end.

(** The sort part, if the condition has one. *)
Definition sortCondition (c : KeyCondition) : option KeyCondition :=
  match c with
  | merge _ sort => Some sort
  | _ => None
  end.

(** What one read of the [value] slot of an attribute yields, and the
    state of the generator after it. *)
Definition slotValue {World} `{generator : Generator World}
    (attr : AttributeMetadata.t) (w : World) : JsValue * World :=
  match AttributeMetadata.strategy attr with
  | Some strategy => autoGenerateValue strategy w
  | None => (JUndefined, w)
  end.

(** The value [toDynamoPutItem] uses for a unique attribute. *)
Definition uniqueValue {World} `{generator : Generator World}
    (entity : Entity.t) (attr : AttributeMetadata.t) (w : World)
  : JsValue * World :=
  ((coalesce (slotValue attr w).1
             (prop (Entity.fields entity) (AttributeMetadata.name attr))),
   (slotValue attr w).2).

(** The values of the unique attributes, read one after the other. *)
Fixpoint uniqueValues {World} `{generator : Generator World}
    (entity : Entity.t) (attrs : list AttributeMetadata.t) (w : World)
  : list JsValue * World :=
  match attrs with
  | [] => ([], w)
  | attr :: rest =>
      let first := uniqueValue entity attr w in
      let others := uniqueValues entity rest first.2 in
      (first.1 :: others.1, others.2)
  end.

(** The shadow put of a unique attribute with a value. *)
Definition shadowPut `{ExpressionBuilder} `{Helpers} (table : Table.t)
    (name : string) (attr : AttributeMetadata.t) (value : JsValue)
  : PutItemInput.t :=
  PutItemInput.mk
    (getUniqueAttributePrimaryKey table name (AttributeMetadata.name attr) value)
    (Table.name table)
    (Some (buildConditionExpression (attributeNotExist (Table.partitionKey table)))).


(** The values [formatAutoUpdateAttributes] stores when no attribute is
    rejected: one generated value per auto-update attribute, in order. *)
Fixpoint generateAll {World} `{generator : Generator World}
    (attrs : list AutoGeneratedAttributeMetadata.t) (acc : Obj) (w : World)
  : Obj * World :=
  match attrs with
  | [] => (acc, w)
  | attr :: rest =>
      let '(v, w') := autoGenerateValue (AutoGeneratedAttributeMetadata.strategy attr) w in
      generateAll rest (<[ AutoGeneratedAttributeMetadata.name attr := v ]> acc) w'
  end.

(** [keyCondition.BETWEEN && keyCondition.BETWEEN.length] *)
Definition nonEmptyBetween (kc : KeyConditionOptions) : bool :=
  truthy (kcProp kc "BETWEEN") && truthy (jsLength (kcProp kc "BETWEEN")).



(** The attribute a single clause of a key condition is about. *)
Definition clauseKey (c : KeyCondition) : option string :=
  match c with
  | equals k _ | between k _ | beginsWith k _
  | addBaseOperatorCondition _ k _ => Some k
  | merge _ _ => None
  end.

(** The attributes handed to [buildUpdateExpression]: the index
    attributes over the generated values over the body. *)
Definition mergedAttribute (body formatted affected : Obj) (name : string)
  : option JsValue :=
  match affected !! name with
  | Some v => Some v
  | None =>
      match formatted !! name with
      | Some v => Some v
      | None => body !! name
      end
  end.

(** * Properties *)

Section Properties.
Context {World : Type}.
Context `{connection : Connection} `{_expressionBuilder : ExpressionBuilder}.
Context `{base : BaseTransformer} `{helpers : Helpers}.
Context `{generator : Generator World}.

Lemma bind_Ok {A B} (f : A -> Result B) (a : A) : (Ok a ≫= f) = f a.
Proof. reflexivity. Qed.

Lemma bind_inv {A B} (f : A -> Result B) (m : Result A) (b : B) :
  (m ≫= f) = Ok b -> exists a, m = Ok a /\ f a = Ok b.
Proof. destruct m as [a|e]; [eauto | discriminate]. Qed.

Lemma isEmptyObject_true (o : Obj) : isEmptyObject o = true <-> o = ∅.
Proof.
  unfold isEmptyObject. rewrite Nat.eqb_eq. apply map_size_empty_iff.
Qed.

(** *** Get and delete *)

Lemma toDynamoGetItem_resolved entityClass primaryKey metadata tableName key :
  getEntityByTarget entityClass = Ok metadata ->
  getTableNameForEntity entityClass = Ok tableName ->
  getParsedPrimaryKey (EntityMetadata.table metadata)
      (Schema.primaryKey (EntityMetadata.schema metadata)) primaryKey = Ok key ->
  isEmptyObject key = false ->
  toDynamoGetItem entityClass primaryKey = Ok (GetItemInput.mk tableName key).
Proof.
  intros Hm Ht Hk He. unfold toDynamoGetItem.
  rewrite Hm, bind_Ok, Ht, bind_Ok, Hk, bind_Ok, He. reflexivity.
Qed.

Lemma toDynamoDeleteItem_resolved entityClass primaryKey metadata key :
  getEntityByTarget entityClass = Ok metadata ->
  getParsedPrimaryKey (EntityMetadata.table metadata)
      (Schema.primaryKey (EntityMetadata.schema metadata)) primaryKey = Ok key ->
  isEmptyObject key = false ->
  toDynamoDeleteItem entityClass primaryKey =
    Ok (DeleteItemInput.mk (Table.name (EntityMetadata.table metadata)) key).
Proof.
  intros Hm Hk He. unfold toDynamoDeleteItem.
  rewrite Hm, bind_Ok. cbv zeta. rewrite Hk, bind_Ok, He. reflexivity.
Qed.

(** Whenever both operations return for the same entity class and key
    input, their [Key] maps are the same. *)
Lemma get_delete_keys_agree entityClass primaryKey g d :
  toDynamoGetItem entityClass primaryKey = Ok g ->
  toDynamoDeleteItem entityClass primaryKey = Ok d ->
  GetItemInput.Key g = DeleteItemInput.Key d.
Proof.
  unfold toDynamoGetItem, toDynamoDeleteItem. intros Hg Hd.
  apply bind_inv in Hg as (m & Hm & Hg). rewrite Hm, bind_Ok in Hd.
  apply bind_inv in Hg as (t & _ & Hg).
  apply bind_inv in Hg as (k & Hk & Hg). cbv zeta in Hd.
  rewrite Hk, bind_Ok in Hd.
  destruct (isEmptyObject k); [discriminate |].
  injection Hg as <-. injection Hd as <-. reflexivity.
Qed.

(** C7. For an entity whose table uses a composite key and a primary-key
    input that resolves (the entity is registered, its table name is
    known, and the key parser returns a key that is not empty),
    [toDynamoGetItem] and [toDynamoDeleteItem] both return a request, and
    the two requests carry the same [Key] map, the parsed key. *)
Theorem get_delete_identical_key entityClass primaryKey metadata tableName key :
  Table.usesCompositeKey (EntityMetadata.table metadata) = true ->
  getEntityByTarget entityClass = Ok metadata ->
  getTableNameForEntity entityClass = Ok tableName ->
  getParsedPrimaryKey (EntityMetadata.table metadata)
      (Schema.primaryKey (EntityMetadata.schema metadata)) primaryKey = Ok key ->
  isEmptyObject key = false ->
  exists g d,
    toDynamoGetItem entityClass primaryKey = Ok g /\
    toDynamoDeleteItem entityClass primaryKey = Ok d /\
    GetItemInput.Key g = DeleteItemInput.Key d /\
    GetItemInput.Key g = key.
Proof.
  intros _ Hm Ht Hk He.
  exists (GetItemInput.mk tableName key),
         (DeleteItemInput.mk (Table.name (EntityMetadata.table metadata)) key).
  split; [eapply toDynamoGetItem_resolved; eassumption |].
  split; [eapply toDynamoDeleteItem_resolved; eassumption |].
  split; reflexivity.
Qed.

(** *** Put *)

Lemma uniqueValues_length entity attrs w :
  length (uniqueValues entity attrs w).1 = length attrs.
Proof.
  revert w. induction attrs as [|attr attrs IH]; intros w; [reflexivity |].
  cbn [uniqueValues fst length]. rewrite IH. reflexivity.
Qed.

Lemma uniqueValues_app entity attrs1 attrs2 w :
  uniqueValues entity (attrs1 ++ attrs2)%list w =
    (((uniqueValues entity attrs1 w).1 ++
      (uniqueValues entity attrs2 (uniqueValues entity attrs1 w).2).1)%list,
     (uniqueValues entity attrs2 (uniqueValues entity attrs1 w).2).2).
Proof.
  revert w. induction attrs1 as [|attr attrs1 IH]; intros w.
  - cbn [app uniqueValues fst snd]. destruct (uniqueValues entity attrs2 w).
    reflexivity.
  - cbn [app uniqueValues fst snd]. rewrite IH. reflexivity.
Qed.

(** Each value read is the slot's at some state of the generator, or the
    entity's own field when that is [null] or [undefined]. *)
Lemma uniqueValues_lookup entity attrs w i attr value :
  attrs !! i = Some attr ->
  (uniqueValues entity attrs w).1 !! i = Some value ->
  exists w0,
    value = coalesce (slotValue attr w0).1
              (prop (Entity.fields entity) (AttributeMetadata.name attr)).
Proof.
  revert w i. induction attrs as [|a attrs IH]; intros w [|i] Hattr Hvalue;
    try discriminate.
  - cbn in Hattr, Hvalue. injection Hattr as ->. injection Hvalue as <-.
    exists w. reflexivity.
  - cbn [uniqueValues fst] in Hvalue. cbn in Hattr, Hvalue.
    eapply IH; eassumption.
Qed.

(** One run of the callback of [uniqueAttributes.map]. *)
Lemma uniqueAttributePutItem_run table name entity attr w :
  uniqueAttributePutItem table name
    (buildConditionExpression (attributeNotExist (Table.partitionKey table)))
    entity attr w =
    (if truthy (uniqueValue entity attr w).1
     then Ok (shadowPut table name attr (uniqueValue entity attr w).1)
     else Err (MissingUniqueAttributeValueError (AttributeMetadata.name attr)),
     (uniqueValue entity attr w).2).
Proof.
  unfold uniqueAttributePutItem, uniqueAttributeValue, readValue, uniqueValue,
    slotValue, shadowPut.
  unfold mbind, Op_bind, bindOp, mret, Op_ret, liftR, generate.
  destruct (AttributeMetadata.strategy attr) as [strategy|].
  - destruct (autoGenerateValue strategy w) as [slot w']. cbn [fst snd].
    destruct (truthy _); reflexivity.
  - cbn [fst snd]. destruct (truthy _); reflexivity.
Qed.

Lemma mapOp_cons {A B} (f : A -> Op World B) x rest w :
  mapOp f (x :: rest) w =
    match f x w with
    | (Ok y, w1) =>
        match mapOp f rest w1 with
        | (Ok ys, w2) => (Ok (y :: ys), w2)
        | (Err e, w2) => (Err e, w2)
        end
    | (Err e, w1) => (Err e, w1)
    end.
Proof.
  cbn [mapOp]. unfold mbind, Op_bind, bindOp.
  destruct (f x w) as [[y|e] w1]; [| reflexivity].
  destruct (mapOp f rest w1) as [[ys|e] w2]; reflexivity.
Qed.


Lemma uniqueAttributePutItems_resolved table name entity attrs w :
  Forall (fun value => truthy value = true) (uniqueValues entity attrs w).1 ->
  mapOp (uniqueAttributePutItem table name
           (buildConditionExpression
              (attributeNotExist (Table.partitionKey table))) entity)
        attrs w
  = (Ok (zip_with (shadowPut table name) attrs (uniqueValues entity attrs w).1),
     (uniqueValues entity attrs w).2).
Proof.
  revert w. induction attrs as [|attr attrs IH]; intros w Hall; [reflexivity |].
  cbn [uniqueValues fst snd] in Hall |- *.
  apply Forall_cons in Hall as [Hattr Hall].
  rewrite mapOp_cons, uniqueAttributePutItem_run, Hattr, (IH _ Hall).
  reflexivity.
Qed.

Lemma uniqueAttributePutItems_first_unresolved table name entity resolved attr rest w :
  Forall (fun value => truthy value = true) (uniqueValues entity resolved w).1 ->
  truthy (uniqueValue entity attr (uniqueValues entity resolved w).2).1 = false ->
  mapOp (uniqueAttributePutItem table name
           (buildConditionExpression
              (attributeNotExist (Table.partitionKey table))) entity)
        (resolved ++ attr :: rest)%list w
  = (Err (MissingUniqueAttributeValueError (AttributeMetadata.name attr)),
     (uniqueValue entity attr (uniqueValues entity resolved w).2).2).
Proof.
  revert w. induction resolved as [|a resolved IH]; intros w Hres Hattr.
  - cbn [app uniqueValues fst snd] in *.
    rewrite mapOp_cons, uniqueAttributePutItem_run, Hattr. reflexivity.
  - cbn [app uniqueValues fst snd] in *.
    apply Forall_cons in Hres as [Ha Hres].
    rewrite mapOp_cons, uniqueAttributePutItem_run, Ha, (IH _ Hres Hattr).
    reflexivity.
Qed.

Lemma uniqueAttributePutItems_inv table name entity attrs w items w' :
  mapOp (uniqueAttributePutItem table name
           (buildConditionExpression
              (attributeNotExist (Table.partitionKey table))) entity)
        attrs w = (Ok items, w') ->
  Forall (fun value => truthy value = true) (uniqueValues entity attrs w).1.
Proof.
  revert w items w'. induction attrs as [|attr attrs IH]; intros w items w' H;
    [constructor |].
  rewrite mapOp_cons, uniqueAttributePutItem_run in H.
  cbn [uniqueValues fst].
  destruct (truthy (uniqueValue entity attr w).1) eqn:Hv; [| discriminate].
  destruct (mapOp _ attrs (uniqueValue entity attr w).2) as [[ys|e] w2] eqn:Hrest;
    [| discriminate].
  constructor; [exact Hv | eapply IH, Hrest].
Qed.

(** [toDynamoPutItem] once the entity is registered and its literal item
    is built. *)
Lemma toDynamoPutItem_run entity options metadata item w :
  getEntityByTarget (Entity.constructor entity) = Ok metadata ->
  toDynamoEntity entity = Ok item ->
  let table := EntityMetadata.table metadata in
  let notExists :=
    buildConditionExpression (attributeNotExist (Table.partitionKey table)) in
  let main :=
    PutItemInput.mk item (Table.name table)
      (if overwrites options then None else Some notExists) in
  toDynamoPutItem entity options w =
    match mapOp (uniqueAttributePutItem table (EntityMetadata.name metadata)
                   notExists entity)
                (getUniqueAttributesForEntity (Entity.constructor entity)) w with
    | (Ok shadows, w') =>
        (Ok (match shadows with
             | [] => SinglePut main
             | _ :: _ => PutList (main :: shadows)
             end), w')
    | (Err e, w') => (Err e, w')
    end.
Proof.
  intros Hm Hi table notExists main. unfold toDynamoPutItem.
  unfold mbind at 1 2, Op_bind, bindOp, liftR. rewrite Hm, Hi. cbv zeta.
  unfold mbind at 1, Op_bind, bindOp. fold table. fold notExists.
  destruct (mapOp _ _ w) as [[shadows|e] w']; [| reflexivity].
  subst main. destruct (overwrites options); cbn [negb]; destruct shadows;
    reflexivity.
Qed.

(** What [toDynamoPutItem] returns once the entity is registered, its
    literal item is built and every unique attribute resolves. *)
Lemma toDynamoPutItem_resolved entity options metadata item w :
  getEntityByTarget (Entity.constructor entity) = Ok metadata ->
  toDynamoEntity entity = Ok item ->
  let uniqueAttributes :=
    getUniqueAttributesForEntity (Entity.constructor entity) in
  Forall (fun value => truthy value = true)
         (uniqueValues entity uniqueAttributes w).1 ->
  let table := EntityMetadata.table metadata in
  let main :=
    PutItemInput.mk item (Table.name table)
      (if overwrites options then None
       else Some (buildConditionExpression
                    (attributeNotExist (Table.partitionKey table)))) in
  let shadows :=
    zip_with (shadowPut table (EntityMetadata.name metadata))
             uniqueAttributes (uniqueValues entity uniqueAttributes w).1 in
  toDynamoPutItem entity options w =
    (Ok (match shadows with
         | [] => SinglePut main
         | _ :: _ => PutList (main :: shadows)
         end), (uniqueValues entity uniqueAttributes w).2).
Proof.
  intros Hm Hi uniqueAttributes Hu table main shadows.
  rewrite (toDynamoPutItem_run _ _ _ _ _ Hm Hi). cbv zeta.
  fold uniqueAttributes table.
  rewrite (uniqueAttributePutItems_resolved _ _ _ _ _ Hu). reflexivity.
Qed.

Lemma shadows_carry_condition table name attrs values :
  Forall (fun shadow =>
            PutItemInput.Condition shadow =
              Some (buildConditionExpression
                      (attributeNotExist (Table.partitionKey table))))
         (zip_with (shadowPut table name) attrs values).
Proof.
  revert values. induction attrs as [|attr attrs IH]; intros [|value values];
    cbn [zip_with]; constructor; [reflexivity | apply IH].
Qed.

Lemma length_shadows table name attrs entity w :
  length (zip_with (shadowPut table name) attrs (uniqueValues entity attrs w).1)
  = length attrs.
Proof. rewrite length_zip_with, uniqueValues_length. lia. Qed.

(** C2. For an entity with N >= 1 unique attributes whose values, as this
    call reads them, all resolve, [toDynamoPutItem] returns a list of
    exactly N+1 put requests: the entity put first, then one shadow put
    per unique attribute in order.  The [Item] of the shadow put of an
    attribute is [getUniqueAttributePrimaryKey] applied to the table, the
    entity name, the attribute name and the value read for the attribute
    (for an attribute that is not auto-generated, the entity's own field);
    nothing else enters it: any other call, on whatever entity of the
    class, with whatever options and generator state, that reads the same
    values returns the same shadow puts.  With no unique attribute a
    single put request is returned, not a list, and nothing is read. *)
Theorem put_returns_entity_and_shadow_puts entity metadata item w :
  getEntityByTarget (Entity.constructor entity) = Ok metadata ->
  toDynamoEntity entity = Ok item ->
  let uniqueAttributes :=
    getUniqueAttributesForEntity (Entity.constructor entity) in
  let table := EntityMetadata.table metadata in
  let name := EntityMetadata.name metadata in
  let values := (uniqueValues entity uniqueAttributes w).1 in
  Forall (fun value => truthy value = true) values ->
  (1 <= length uniqueAttributes ->
   exists shadows,
     length shadows = length uniqueAttributes /\
     (forall i attr value,
        uniqueAttributes !! i = Some attr -> values !! i = Some value ->
        (AttributeMetadata.strategy attr = None ->
         value = prop (Entity.fields entity) (AttributeMetadata.name attr)) /\
        exists shadow,
          shadows !! i = Some shadow /\
          PutItemInput.Item shadow =
            getUniqueAttributePrimaryKey table name
              (AttributeMetadata.name attr) value /\
          PutItemInput.TableName shadow = Table.name table) /\
     (forall options, exists main,
        toDynamoPutItem entity options w =
          (Ok (PutList (main :: shadows)),
           (uniqueValues entity uniqueAttributes w).2) /\
        length (main :: shadows) = length uniqueAttributes + 1 /\
        PutItemInput.Item main = item /\
        PutItemInput.TableName main = Table.name table) /\
     (forall entity2 item2 options2 w2,
        Entity.constructor entity2 = Entity.constructor entity ->
        toDynamoEntity entity2 = Ok item2 ->
        (uniqueValues entity2 uniqueAttributes w2).1 = values ->
        exists main2,
          toDynamoPutItem entity2 options2 w2 =
            (Ok (PutList (main2 :: shadows)),
             (uniqueValues entity2 uniqueAttributes w2).2))) /\
  (length uniqueAttributes = 0 ->
   forall options, exists main,
     toDynamoPutItem entity options w = (Ok (SinglePut main), w) /\
     PutItemInput.Item main = item /\
     PutItemInput.TableName main = Table.name table).
Proof.
  intros Hm Hi uniqueAttributes table name values Hu.
  pose proof (fun options =>
    toDynamoPutItem_resolved entity options metadata item w Hm Hi Hu) as Hput.
  cbv zeta in Hput. fold uniqueAttributes table name values in Hput.
  split.
  - intros Hn.
    exists (zip_with (shadowPut table name) uniqueAttributes values).
    assert (Hlen : length (zip_with (shadowPut table name) uniqueAttributes values)
                   = length uniqueAttributes) by apply length_shadows.
    split; [exact Hlen |]. split; [| split].
    + intros i attr value Hattr Hvalue. split.
      * intros Hplain.
        destruct (uniqueValues_lookup _ _ _ _ _ _ Hattr Hvalue) as [w0 ->].
        unfold slotValue. rewrite Hplain. reflexivity.
      * eexists. split.
        -- rewrite lookup_zip_with, Hattr, Hvalue. reflexivity.
        -- split; reflexivity.
    + intros options. eexists. split; [| split; [| split]].
      * rewrite Hput.
        destruct (zip_with (shadowPut table name) uniqueAttributes values);
          [cbn in Hlen; lia | reflexivity].
      * cbn [length]. rewrite Hlen. lia.
      * reflexivity.
      * reflexivity.
    + intros entity2 item2 options2 w2 Hclass Hi2 Hvalues.
      assert (Hu2 : Forall (fun value => truthy value = true)
                      (uniqueValues entity2
                         (getUniqueAttributesForEntity (Entity.constructor entity2))
                         w2).1).
      { rewrite Hclass. fold uniqueAttributes. rewrite Hvalues. exact Hu. }
      rewrite <- Hclass in Hm.
      rewrite (toDynamoPutItem_resolved entity2 options2 metadata item2 w2
                 Hm Hi2 Hu2).
      rewrite Hclass. fold uniqueAttributes table name. rewrite Hvalues.
      eexists.
      destruct (zip_with (shadowPut table name) uniqueAttributes values);
        [cbn in Hlen; lia | reflexivity].
  - intros Hn options. destruct uniqueAttributes; [| discriminate].
    eexists. split; [apply Hput |]. split; reflexivity.
Qed.

(** C3. Once a put returns (the entity is registered, its literal item is
    built, every unique attribute resolves): with no options, or with
    [overwriteIfExists: false], the entity's own put carries the
    "attribute not exists" condition on the table's partition key; with
    [overwriteIfExists: true] it carries no condition; every shadow put
    carries that condition whatever the options. *)
Theorem put_condition_by_overwrite_option entity options metadata item w :
  getEntityByTarget (Entity.constructor entity) = Ok metadata ->
  toDynamoEntity entity = Ok item ->
  Forall (fun value => truthy value = true)
         (uniqueValues entity
            (getUniqueAttributesForEntity (Entity.constructor entity)) w).1 ->
  let notExists :=
    buildConditionExpression
      (attributeNotExist (Table.partitionKey (EntityMetadata.table metadata))) in
  exists r main w',
    toDynamoPutItem entity options w = (Ok r, w') /\
    mainPut r = Some main /\
    (options = None \/ options = Some {| overwriteIfExists := false |} ->
     PutItemInput.Condition main = Some notExists) /\
    (options = Some {| overwriteIfExists := true |} ->
     PutItemInput.Condition main = None) /\
    length (shadowPuts r) =
      length (getUniqueAttributesForEntity (Entity.constructor entity)) /\
    Forall (fun shadow => PutItemInput.Condition shadow = Some notExists)
           (shadowPuts r).
Proof.
  intros Hm Hi Hu notExists.
  pose proof (toDynamoPutItem_resolved entity options metadata item w Hm Hi Hu)
    as Hput. cbv zeta in Hput.
  pose proof (length_shadows (EntityMetadata.table metadata)
                (EntityMetadata.name metadata)
                (getUniqueAttributesForEntity (Entity.constructor entity))
                entity w) as Hlen.
  set (shadows := zip_with _ _ _) in Hput, Hlen.
  assert (Hshadows : Forall (fun shadow =>
                        PutItemInput.Condition shadow = Some notExists) shadows).
  { subst shadows. apply shadows_carry_condition. }
  eexists _, _, _. split; [exact Hput |].
  split; [destruct shadows; reflexivity |].
  split; [| split; [| split]].
  - intros [-> | ->]; reflexivity.
  - intros ->. reflexivity.
  - destruct shadows; [symmetry in Hlen |]; cbn; [rewrite Hlen; reflexivity | exact Hlen].
  - destruct shadows; [constructor | exact Hshadows].
Qed.

(** *** Update *)

Lemma rejectUniqueAttribute_cases body attr :
  rejectUniqueAttribute body attr =
    if truthy (prop body (AttributeMetadata.name attr))
    then Err ImmutableUniqueAttributeError else Ok tt.
Proof. reflexivity. Qed.

Lemma rejectUniqueAttributes_none body attrs :
  Forall (fun attr => truthy (prop body (AttributeMetadata.name attr)) = false)
         attrs ->
  forEach (rejectUniqueAttribute body) attrs = Ok tt.
Proof.
  induction 1 as [|attr attrs Hattr _ IH]; [reflexivity |].
  cbn [forEach]. rewrite rejectUniqueAttribute_cases, Hattr, bind_Ok.
  exact IH.
Qed.

Lemma rejectUniqueAttributes_some body attrs :
  Exists (fun attr => truthy (prop body (AttributeMetadata.name attr)) = true)
         attrs ->
  forEach (rejectUniqueAttribute body) attrs = Err ImmutableUniqueAttributeError.
Proof.
  induction attrs as [|attr attrs IH]; intros Hex; [inversion Hex |].
  cbn [forEach]. rewrite rejectUniqueAttribute_cases.
  destruct (truthy (prop body (AttributeMetadata.name attr))) eqn:Hv;
    [reflexivity |].
  rewrite bind_Ok. apply IH.
  inversion Hex; subst; [congruence | assumption].
Qed.

Lemma formatAutoUpdateAttributes_none primaryKey attrs acc w :
  Forall (fun attr =>
            truthy (prop primaryKey (AutoGeneratedAttributeMetadata.name attr))
            = false) attrs ->
  formatAutoUpdateAttributes primaryKey attrs acc w =
    (Ok (generateAll attrs acc w).1, (generateAll attrs acc w).2).
Proof.
  intros Hall. revert acc w.
  induction Hall as [|attr attrs Hattr _ IH]; intros acc w; [reflexivity |].
  cbn [formatAutoUpdateAttributes generateAll]. rewrite Hattr.
  unfold mbind, Op_bind, bindOp, generate.
  destruct (autoGenerateValue _ w) as [v w']. apply IH.
Qed.

Lemma formatAutoUpdateAttributes_some primaryKey attrs acc w :
  Exists (fun attr =>
            truthy (prop primaryKey (AutoGeneratedAttributeMetadata.name attr))
            = true) attrs ->
  exists attr w',
    attr ∈ attrs /\
    truthy (prop primaryKey (AutoGeneratedAttributeMetadata.name attr)) = true /\
    formatAutoUpdateAttributes primaryKey attrs acc w =
      (Err (AutoGeneratedAttributeKeyCollisionError
              (AutoGeneratedAttributeMetadata.name attr)), w').
Proof.
  revert acc w. induction attrs as [|attr attrs IH]; intros acc w Hex;
    [inversion Hex |].
  cbn [formatAutoUpdateAttributes].
  destruct (truthy (prop primaryKey (AutoGeneratedAttributeMetadata.name attr)))
    eqn:Hv.
  - exists attr, w. split; [left |]. split; [exact Hv | reflexivity].
  - unfold mbind, Op_bind, bindOp, generate.
    destruct (autoGenerateValue _ w) as [v w'].
    destruct (IH (<[AutoGeneratedAttributeMetadata.name attr := v]> acc) w')
      as (a & w'' & Ha & Hta & Hr).
    { inversion Hex; subst; [congruence | assumption]. }
    exists a, w''. split; [right; exact Ha |]. split; assumption.
Qed.

(** Every auto-update attribute has a generated value in the result. *)
Lemma generateAll_lookup attrs acc w attr :
  attr ∈ attrs ->
  is_Some ((generateAll attrs acc w).1 !! AutoGeneratedAttributeMetadata.name attr).
Proof.
  assert (Hkeep : forall attrs acc w k,
            is_Some (acc !! k) -> is_Some ((generateAll attrs acc w).1 !! k)).
  { clear. induction attrs as [|a attrs IH]; intros acc w k Hk; [exact Hk |].
    cbn [generateAll]. destruct (autoGenerateValue _ w) as [v w'].
    apply IH. rewrite lookup_insert. case_decide; [eauto | exact Hk]. }
  revert acc w. induction attrs as [|a attrs IH]; intros acc w Hin;
    [inversion Hin |].
  cbn [generateAll]. destruct (autoGenerateValue _ w) as [v w'].
  apply elem_of_cons in Hin as [-> | Hin].
  - apply Hkeep. rewrite lookup_insert_eq. eauto.
  - apply IH, Hin.
Qed.

(** [toDynamoUpdateItem] once the entity is registered and its primary
    key is parsed. *)
Lemma toDynamoUpdateItem_checked entityClass primaryKey body options metadata key w :
  hasMetadata entityClass = true ->
  getEntityByTarget entityClass = Ok metadata ->
  getParsedPrimaryKey (EntityMetadata.table metadata)
      (Schema.primaryKey (EntityMetadata.schema metadata)) primaryKey = Ok key ->
  isEmptyObject key = false ->
  toDynamoUpdateItem entityClass primaryKey body options w =
    match forEach (rejectUniqueAttribute body)
                  (getUniqueAttributesForEntity entityClass) with
    | Err e => (Err e, w)
    | Ok _ =>
        match formatAutoUpdateAttributes primaryKey
                (getAutoUpdateAttributes entityClass) ∅ w with
        | (Err e, w') => (Err e, w')
        | (Ok formatted, w') =>
            match getAffectedIndexesForAttributes entityClass
                    (spread body formatted)
                    (default "." (options ≫= nestedKeySeparator)) with
            | Err e => (Err e, w')
            | Ok affected =>
                (Ok (UpdateItemInput.mk
                       (Table.name (EntityMetadata.table metadata)) key
                       (buildUpdateExpression
                          (spread (spread body formatted) affected))
                       (default ALL_NEW (options ≫= returnValues))), w')
            end
        end
    end.
Proof.
  intros Hh Hm Hk He. unfold toDynamoUpdateItem. cbv zeta. rewrite Hh. cbn [negb].
  unfold mbind at 1 2, Op_bind, bindOp, liftR. rewrite Hm, Hk, He.
  unfold mbind at 1, Op_bind, bindOp.
  destruct (forEach _ _) as [[]|e]; [| reflexivity].
  unfold mbind at 1, Op_bind, bindOp.
  destruct (formatAutoUpdateAttributes _ _ _ w) as [[formatted|e] w'];
    [| reflexivity].
  unfold mbind at 1, Op_bind, bindOp.
  destruct (getAffectedIndexesForAttributes _ _ _) as [affected|e]; reflexivity.
Qed.

(** A unique attribute whose value in the body is truthy is rejected. *)
Lemma update_rejects_truthy_unique_attribute
    entityClass primaryKey body options metadata key w attr :
  hasMetadata entityClass = true ->
  getEntityByTarget entityClass = Ok metadata ->
  getParsedPrimaryKey (EntityMetadata.table metadata)
      (Schema.primaryKey (EntityMetadata.schema metadata)) primaryKey = Ok key ->
  isEmptyObject key = false ->
  attr ∈ getUniqueAttributesForEntity entityClass ->
  truthy (prop body (AttributeMetadata.name attr)) = true ->
  toDynamoUpdateItem entityClass primaryKey body options w =
    (Err ImmutableUniqueAttributeError, w).
Proof.
  intros Hh Hm Hk He Hin Hv.
  rewrite (toDynamoUpdateItem_checked _ _ _ _ _ _ _ Hh Hm Hk He).
  rewrite rejectUniqueAttributes_some; [reflexivity |].
  apply Exists_exists. exists attr. split; assumption.
Qed.

(** C5. The update body assigns a unique attribute of the entity a value
    that is not truthy (the empty string, zero, [false], [null]): when no
    unique attribute has a truthy value in the body, [toDynamoUpdateItem]
    raises no [ImmutableUniqueAttributeError]; it returns the update
    request, whose update expression is built from the body, the assignment
    to the unique attribute included. *)
Theorem update_applies_falsy_unique_attribute
    entityClass primaryKey body options metadata key w attr v
    formatted w' affected :
  hasMetadata entityClass = true ->
  getEntityByTarget entityClass = Ok metadata ->
  getParsedPrimaryKey (EntityMetadata.table metadata)
      (Schema.primaryKey (EntityMetadata.schema metadata)) primaryKey = Ok key ->
  isEmptyObject key = false ->
  attr ∈ getUniqueAttributesForEntity entityClass ->
  body !! AttributeMetadata.name attr = Some v ->
  truthy v = false ->
  Forall (fun attr => truthy (prop body (AttributeMetadata.name attr)) = false)
         (getUniqueAttributesForEntity entityClass) ->
  formatAutoUpdateAttributes primaryKey (getAutoUpdateAttributes entityClass) ∅ w
    = (Ok formatted, w') ->
  formatted !! AttributeMetadata.name attr = None ->
  getAffectedIndexesForAttributes entityClass (spread body formatted)
    (default "." (options ≫= nestedKeySeparator)) = Ok affected ->
  toDynamoUpdateItem entityClass primaryKey body options w =
    (Ok (UpdateItemInput.mk
           (Table.name (EntityMetadata.table metadata)) key
           (buildUpdateExpression (spread (spread body formatted) affected))
           (default ALL_NEW (options ≫= returnValues))), w') /\
  spread body formatted !! AttributeMetadata.name attr = Some v.
Proof.
  intros Hh Hm Hk He _ Hb _ Hall Hf Hnone Ha.
  rewrite (toDynamoUpdateItem_checked _ _ _ _ _ _ _ Hh Hm Hk He).
  rewrite (rejectUniqueAttributes_none _ _ Hall), Hf, Ha.
  split; [reflexivity |].
  unfold spread. rewrite lookup_union_r; assumption.
Qed.

(** An auto-update attribute whose name has a truthy value in the primary
    key input is rejected, provided no unique attribute was. *)
Lemma update_rejects_truthy_key_collision
    entityClass primaryKey body options metadata key w :
  hasMetadata entityClass = true ->
  getEntityByTarget entityClass = Ok metadata ->
  getParsedPrimaryKey (EntityMetadata.table metadata)
      (Schema.primaryKey (EntityMetadata.schema metadata)) primaryKey = Ok key ->
  isEmptyObject key = false ->
  Forall (fun attr => truthy (prop body (AttributeMetadata.name attr)) = false)
         (getUniqueAttributesForEntity entityClass) ->
  Exists (fun attr =>
            truthy (prop primaryKey (AutoGeneratedAttributeMetadata.name attr))
            = true) (getAutoUpdateAttributes entityClass) ->
  exists attr w',
    attr ∈ getAutoUpdateAttributes entityClass /\
    toDynamoUpdateItem entityClass primaryKey body options w =
      (Err (AutoGeneratedAttributeKeyCollisionError
              (AutoGeneratedAttributeMetadata.name attr)), w').
Proof.
  intros Hh Hm Hk He Hall Hex.
  rewrite (toDynamoUpdateItem_checked _ _ _ _ _ _ _ Hh Hm Hk He).
  rewrite (rejectUniqueAttributes_none _ _ Hall).
  destruct (formatAutoUpdateAttributes_some primaryKey _ ∅ w Hex)
    as (attr & w' & Hin & _ & Hr).
  exists attr, w'. split; [exact Hin |]. rewrite Hr. reflexivity.
Qed.

(** With no collision found, the generated values are merged over the
    body before the update expression is built. *)
Lemma update_merges_generated_values
    entityClass primaryKey body options metadata key w affected :
  hasMetadata entityClass = true ->
  getEntityByTarget entityClass = Ok metadata ->
  getParsedPrimaryKey (EntityMetadata.table metadata)
      (Schema.primaryKey (EntityMetadata.schema metadata)) primaryKey = Ok key ->
  isEmptyObject key = false ->
  Forall (fun attr => truthy (prop body (AttributeMetadata.name attr)) = false)
         (getUniqueAttributesForEntity entityClass) ->
  Forall (fun attr =>
            truthy (prop primaryKey (AutoGeneratedAttributeMetadata.name attr))
            = false) (getAutoUpdateAttributes entityClass) ->
  let generated := generateAll (getAutoUpdateAttributes entityClass) ∅ w in
  getAffectedIndexesForAttributes entityClass (spread body generated.1)
    (default "." (options ≫= nestedKeySeparator)) = Ok affected ->
  toDynamoUpdateItem entityClass primaryKey body options w =
    (Ok (UpdateItemInput.mk
           (Table.name (EntityMetadata.table metadata)) key
           (buildUpdateExpression (spread (spread body generated.1) affected))
           (default ALL_NEW (options ≫= returnValues))), generated.2) /\
  forall attr, attr ∈ getAutoUpdateAttributes entityClass ->
    is_Some (generated.1 !! AutoGeneratedAttributeMetadata.name attr) /\
    spread body generated.1 !! AutoGeneratedAttributeMetadata.name attr =
      generated.1 !! AutoGeneratedAttributeMetadata.name attr.
Proof.
  intros Hh Hm Hk He Hall Hnone generated Ha.
  rewrite (toDynamoUpdateItem_checked _ _ _ _ _ _ _ Hh Hm Hk He).
  rewrite (rejectUniqueAttributes_none _ _ Hall).
  rewrite (formatAutoUpdateAttributes_none _ _ _ _ Hnone).
  fold generated. rewrite Ha. split; [reflexivity |].
  intros attr Hin.
  pose proof (generateAll_lookup _ ∅ w attr Hin) as [v Hv]. fold generated in Hv.
  split; [eauto |].
  unfold spread. rewrite Hv. apply lookup_union_Some_l, Hv.
Qed.

(** C8. An auto-update attribute is named in the primary-key input with a
    value that is not truthy (a timestamp of zero, say): when no
    auto-update attribute has a truthy value there, [toDynamoUpdateItem]
    raises no [AutoGeneratedAttributeKeyCollisionError]; it generates a
    value for the attribute and returns the update request built with
    it. *)
Theorem update_misses_falsy_key_collision
    entityClass primaryKey body options metadata key w attr v affected :
  hasMetadata entityClass = true ->
  getEntityByTarget entityClass = Ok metadata ->
  getParsedPrimaryKey (EntityMetadata.table metadata)
      (Schema.primaryKey (EntityMetadata.schema metadata)) primaryKey = Ok key ->
  isEmptyObject key = false ->
  Forall (fun attr => truthy (prop body (AttributeMetadata.name attr)) = false)
         (getUniqueAttributesForEntity entityClass) ->
  attr ∈ getAutoUpdateAttributes entityClass ->
  primaryKey !! AutoGeneratedAttributeMetadata.name attr = Some v ->
  truthy v = false ->
  Forall (fun attr =>
            truthy (prop primaryKey (AutoGeneratedAttributeMetadata.name attr))
            = false) (getAutoUpdateAttributes entityClass) ->
  let generated := generateAll (getAutoUpdateAttributes entityClass) ∅ w in
  getAffectedIndexesForAttributes entityClass (spread body generated.1)
    (default "." (options ≫= nestedKeySeparator)) = Ok affected ->
  toDynamoUpdateItem entityClass primaryKey body options w =
    (Ok (UpdateItemInput.mk
           (Table.name (EntityMetadata.table metadata)) key
           (buildUpdateExpression (spread (spread body generated.1) affected))
           (default ALL_NEW (options ≫= returnValues))), generated.2) /\
  is_Some (spread body generated.1 !! AutoGeneratedAttributeMetadata.name attr).
Proof.
  intros Hh Hm Hk He Hall Hin _ _ Hnone generated Ha.
  destruct (update_merges_generated_values _ _ _ _ _ _ _ _
              Hh Hm Hk He Hall Hnone Ha) as [Hr Hg].
  split; [exact Hr |].
  destruct (Hg attr Hin) as [[x Hx] Heq].
  exists x. etransitivity; [exact Heq | exact Hx].
Qed.

(** *** Query *)

Lemma keyCondition_not_empty options kc :
  keyCondition options = Some kc -> isEmptyQueryOptions options = false.
Proof.
  unfold keyCondition, isEmptyQueryOptions.
  destruct (keyConditionProperty options); [discriminate |].
  destruct (limitProperty options), (orderByProperty options); reflexivity.
Qed.


Lemma resolveIndexToQuery_inv table schema attrs indexToQuery :
  resolveIndexToQuery table schema attrs = Ok indexToQuery ->
  match indexToQuery with
  | None => requestedIndex attrs = None
  | Some idx =>
      exists q templates,
        requestedIndex attrs = Some q /\
        Table.getIndexByKey table q = Some idx /\
        matchingIndexOnEntity schema q = Some templates
  end.
Proof.
  unfold resolveIndexToQuery.
  destruct (requestedIndex attrs) as [q|] eqn:Hq; [| intros [= <-]; reflexivity].
  destruct (Table.getIndexByKey table q) as [idx|] eqn:Hg; [| discriminate].
  destruct (matchingIndexOnEntity schema q) as [templates|] eqn:Ht;
    [| discriminate].
  intros [= <-]. exists q, templates. repeat split; assumption || reflexivity.
Qed.


(** The query request, once the index and the partition key are
    resolved. *)
Lemma toDynamoQueryItem_resolved entityClass attrs queryOptions metadata
    indexToQuery parsed :
  getEntityByTarget entityClass = Ok metadata ->
  let table := EntityMetadata.table metadata in
  let schema := EntityMetadata.schema metadata in
  resolveIndexToQuery table schema attrs = Ok indexToQuery ->
  resolvePartitionKey table schema indexToQuery attrs = Ok parsed ->
  let partitionKeyCondition := equals (pk_name parsed) (pk_value parsed) in
  toDynamoQueryItem entityClass attrs queryOptions =
    if noQueryOptions queryOptions
    then Ok (QueryInput.mk (Table.name table) (queryIndex attrs) None None
               (Some (buildKeyConditionExpression partitionKeyCondition)))
    else
      match resolveSortKeyName table indexToQuery with
      | Err e => Err e
      | Ok sortKeyName =>
          Ok (QueryInput.mk (Table.name table) (queryIndex attrs)
                (queryOptions ≫= limit)
                (Some (scanIndexForward (queryOptions ≫= orderBy)))
                (match queryOptions ≫= keyCondition with
                 | Some kc =>
                     if isEmptyKeyCondition kc then None
                     else Some (buildKeyConditionExpression
                                  (merge partitionKeyCondition
                                         (sortKeyCondition sortKeyName kc)))
                 | None => None
                 end))
      end.
Proof.
  intros Hm table schema Hi Hp partitionKeyCondition.
  unfold toDynamoQueryItem. rewrite Hm, bind_Ok. cbv zeta.
  fold table schema. rewrite Hi, bind_Ok, Hp, bind_Ok.
  destruct queryOptions as [options|]; [| reflexivity].
  cbn [noQueryOptions]. destruct (isEmptyQueryOptions options); [reflexivity |].
  destruct (resolveSortKeyName table indexToQuery) as [sortKeyName|e];
    [| reflexivity].
  rewrite bind_Ok. cbn [mbind option_bind].
  destruct (keyCondition options) as [kc|]; [| reflexivity].
  destruct (isEmptyKeyCondition kc); reflexivity.
Qed.

Lemma toDynamoQueryItem_inv entityClass attrs queryOptions metadata request :
  getEntityByTarget entityClass = Ok metadata ->
  toDynamoQueryItem entityClass attrs queryOptions = Ok request ->
  exists indexToQuery parsed,
    resolveIndexToQuery (EntityMetadata.table metadata)
      (EntityMetadata.schema metadata) attrs = Ok indexToQuery /\
    resolvePartitionKey (EntityMetadata.table metadata)
      (EntityMetadata.schema metadata) indexToQuery attrs = Ok parsed.
Proof.
  intros Hm H. unfold toDynamoQueryItem in H. rewrite Hm, bind_Ok in H.
  cbv zeta in H.
  apply bind_inv in H as (indexToQuery & Hi & H).
  apply bind_inv in H as (parsed & Hp & _). eauto.
Qed.


(** C4. On the base table (no index requested) of a table without a sort
    key, query options that hold no key condition at all (only a limit or
    an order) make [toDynamoQueryItem] raise the error of the sort-key
    guard, although no sort-key condition is supplied. *)
Theorem query_flat_table_rejects_options_without_key_condition
    entityClass attrs options metadata value :
  getEntityByTarget entityClass = Ok metadata ->
  let table := EntityMetadata.table metadata in
  let schema := EntityMetadata.schema metadata in
  requestedIndex attrs = None ->
  Table.sortKey table = None ->
  parseKey (Schema.primaryKey schema !! Table.partitionKey table) attrs
    = Ok value ->
  keyCondition options = None ->
  isEmptyQueryOptions options = false ->
  toDynamoQueryItem entityClass attrs (Some options) =
    Err (UnsupportedSortKeyConditionError (Table.name table)).
Proof.
  intros Hm table schema Hr Hs Hv _ Hne.
  assert (Hi : resolveIndexToQuery table schema attrs = Ok None).
  { unfold resolveIndexToQuery. rewrite Hr. reflexivity. }
  assert (Hp : resolvePartitionKey table schema None attrs =
               Ok {| pk_name := Table.partitionKey table; pk_value := value |}).
  { unfold resolvePartitionKey. rewrite Hv. reflexivity. }
  rewrite (toDynamoQueryItem_resolved _ _ _ _ _ _ Hm Hi Hp).
  cbn [noQueryOptions]. rewrite Hne. fold table.
  unfold resolveSortKeyName. rewrite Hs. reflexivity.
Qed.

(** On the same table, a supplied key condition raises the error, and no
    options at all give the partition-only request. *)
Lemma query_flat_table_guard entityClass attrs metadata value :
  getEntityByTarget entityClass = Ok metadata ->
  let table := EntityMetadata.table metadata in
  let schema := EntityMetadata.schema metadata in
  requestedIndex attrs = None ->
  Table.sortKey table = None ->
  parseKey (Schema.primaryKey schema !! Table.partitionKey table) attrs
    = Ok value ->
  (forall options kc,
     keyCondition options = Some kc ->
     toDynamoQueryItem entityClass attrs (Some options) =
       Err (UnsupportedSortKeyConditionError (Table.name table))) /\
  toDynamoQueryItem entityClass attrs None =
    Ok (QueryInput.mk (Table.name table) (queryIndex attrs) None None
          (Some (buildKeyConditionExpression
                   (equals (Table.partitionKey table) value)))).
Proof.
  intros Hm table schema Hr Hs Hv.
  assert (Hi : resolveIndexToQuery table schema attrs = Ok None).
  { unfold resolveIndexToQuery. rewrite Hr. reflexivity. }
  assert (Hp : resolvePartitionKey table schema None attrs =
               Ok {| pk_name := Table.partitionKey table; pk_value := value |}).
  { unfold resolvePartitionKey. rewrite Hv. reflexivity. }
  split.
  - intros options kc Hkc.
    rewrite (toDynamoQueryItem_resolved _ _ _ _ _ _ Hm Hi Hp).
    cbn [noQueryOptions]. rewrite (keyCondition_not_empty _ _ Hkc). fold table.
    unfold resolveSortKeyName. rewrite Hs. reflexivity.
  - rewrite (toDynamoQueryItem_resolved _ _ _ _ _ _ Hm Hi Hp). reflexivity.
Qed.

(** The one clause [sortKeyCondition] builds, by cases. *)
Lemma sortKeyCondition_cases sortKeyName kc :
  (nonEmptyBetween kc = true ->
   sortKeyCondition sortKeyName kc = between sortKeyName (kcProp kc "BETWEEN")) /\
  (nonEmptyBetween kc = false -> truthy (kcProp kc "BEGINS_WITH") = true ->
   sortKeyCondition sortKeyName kc =
     beginsWith sortKeyName (kcProp kc "BEGINS_WITH")) /\
  (nonEmptyBetween kc = false -> truthy (kcProp kc "BEGINS_WITH") = false ->
   sortKeyCondition sortKeyName kc =
     addBaseOperatorCondition (firstKey kc) sortKeyName (kcProp kc (firstKey kc))).
Proof.
  unfold sortKeyCondition, nonEmptyBetween.
  repeat split; intros; repeat match goal with H : _ = _ |- _ => rewrite H end;
    reflexivity.
Qed.

(** C10. When the key condition object is not empty (one operator or
    several), exactly one sort-key clause is built and merged after the
    partition-key equality: a BETWEEN whose value is not empty wins;
    otherwise a BEGINS_WITH whose value is truthy wins; otherwise the
    first enumerated key of the object is used as a base operator with its
    value.  No other key of the object reaches the expression builder. *)
Theorem key_condition_precedence entityClass attrs options metadata
    indexToQuery parsed sortKeyName kc :
  getEntityByTarget entityClass = Ok metadata ->
  let table := EntityMetadata.table metadata in
  let schema := EntityMetadata.schema metadata in
  resolveIndexToQuery table schema attrs = Ok indexToQuery ->
  resolvePartitionKey table schema indexToQuery attrs = Ok parsed ->
  resolveSortKeyName table indexToQuery = Ok sortKeyName ->
  keyCondition options = Some kc ->
  kc <> [] ->
  exists clause,
    toDynamoQueryItem entityClass attrs (Some options) =
      Ok (QueryInput.mk (Table.name table) (queryIndex attrs) (limit options)
            (Some (scanIndexForward (orderBy options)))
            (Some (buildKeyConditionExpression
                     (merge (equals (pk_name parsed) (pk_value parsed)) clause)))) /\
    (nonEmptyBetween kc = true ->
     clause = between sortKeyName (kcProp kc "BETWEEN")) /\
    (nonEmptyBetween kc = false -> truthy (kcProp kc "BEGINS_WITH") = true ->
     clause = beginsWith sortKeyName (kcProp kc "BEGINS_WITH")) /\
    (nonEmptyBetween kc = false -> truthy (kcProp kc "BEGINS_WITH") = false ->
     clause = addBaseOperatorCondition (firstKey kc) sortKeyName
                (kcProp kc (firstKey kc))).
Proof.
  intros Hm table schema Hi Hp Hs Hkc Hne.
  exists (sortKeyCondition sortKeyName kc).
  split; [| apply sortKeyCondition_cases].
  rewrite (toDynamoQueryItem_resolved _ _ _ _ _ _ Hm Hi Hp).
  cbn [noQueryOptions]. rewrite (keyCondition_not_empty _ _ Hkc).
  fold table. rewrite Hs. cbn [mbind option_bind]. rewrite Hkc.
  destruct kc; [congruence | reflexivity].
Qed.

End Properties.

(** * The properties on the registered entities *)

(** C9. The User scenario.  The table names its partition key [PK], its
    sort key [SK] and the partition key of [GSI1] [GSI1PK];
    [toDynamoGetItem(User, {id: "1"})] returns the key
    [{PK: "USER#1", SK: "USER#1"}]; and with any expression builder
    [toDynamoQueryItem(User, {status: "active", queryIndex: "GSI1"})]
    returns a request on index [GSI1] whose key condition is the builder's
    expression for the single equality of [GSI1PK] and
    ["USER#STATUS#active"], with no sort-key clause, no limit and no scan
    direction. *)
Theorem user_scenario_get_and_query :
  Table.partitionKey Scenario.table = "PK" /\
  Table.sortKey Scenario.table = Some "SK" /\
  IndexOptions.partitionKey <$> Table.getIndexByKey Scenario.table "GSI1"
    = Some "GSI1PK" /\
  Scenario.get "User" Scenario.idOne =
    Ok (GetItemInput.mk "test-table"
          (<[ "SK" := JStr "USER#1" ]> {[ "PK" := JStr "USER#1" ]})) /\
  forall builder : ExpressionBuilder,
    toDynamoQueryItem (connection := Scenario.connection)
      (_expressionBuilder := builder) (helpers := SpecModel.helpers)
      "User" Scenario.activeOnGSI1 None =
    Ok (QueryInput.mk "test-table" (Some "GSI1") None None
          (Some (buildKeyConditionExpression
                   (equals "GSI1PK" (JStr "USER#STATUS#active"))))) /\
    sortCondition (equals "GSI1PK" (JStr "USER#STATUS#active")) = None.
Proof.
  split; [reflexivity |]. split; [reflexivity |].
  split; [vm_compute; reflexivity |].
  split; [vm_compute; reflexivity |].
  intros builder. split; [| reflexivity].
  vm_compute. reflexivity.
Qed.

(** A query on the local index [LSI1] of [Member], whose schema declares
    a partition template of its own for the index: the partition key is
    the table's, resolved from the primary-key template. *)
Example query_local_index_uses_table_partition_key :
  forall builder : ExpressionBuilder,
    toDynamoQueryItem (connection := Scenario.connection)
      (_expressionBuilder := builder) (helpers := SpecModel.helpers)
      "Member" Scenario.idOneOnLSI1 None =
    Ok (QueryInput.mk "test-table" (Some "LSI1") None None
          (Some (buildKeyConditionExpression
                   (equals "PK" (JStr "MEMBER#1"))))).
Proof. intros builder. vm_compute. reflexivity. Qed.

Lemma get_delete_identical_key_witness :
  exists g d,
    Scenario.get "User" Scenario.idOne = Ok g /\
    Scenario.delete "User" Scenario.idOne = Ok d /\
    GetItemInput.Key g = DeleteItemInput.Key d /\
    GetItemInput.Key g = <[ "SK" := JStr "USER#1" ]> {[ "PK" := JStr "USER#1" ]}.
Proof.
  apply (get_delete_identical_key
           (connection := Scenario.connection) (base := Scenario.base)
           "User" Scenario.idOne (SpecModel.metadata Scenario.User)
           "test-table"
           (<[ "SK" := JStr "USER#1" ]> {[ "PK" := JStr "USER#1" ]}));
    vm_compute; reflexivity.
Defined.

Lemma put_returns_entity_and_shadow_puts_witness :
  (exists main shadow,
     Scenario.put Scenario.ann None 5%Z = (Ok (PutList [main; shadow]), 5%Z) /\
     PutItemInput.Item main = Entity.fields Scenario.ann /\
     PutItemInput.Item shadow =
       SpecModel.getUniqueAttributePrimaryKey Scenario.table "member" "email"
         (JStr "ann@example.com")) /\
  (exists main,
     Scenario.put Scenario.bob None 5%Z = (Ok (SinglePut main), 5%Z) /\
     PutItemInput.Item main = Entity.fields Scenario.bob).
Proof.
  split.
  - destruct (put_returns_entity_and_shadow_puts
                (connection := Scenario.connection)
                (_expressionBuilder := SpecModel.expressionBuilder)
                (base := Scenario.base) (helpers := SpecModel.helpers)
                (generator := SpecModel.clock)
                Scenario.ann (SpecModel.metadata Scenario.Member)
                (Entity.fields Scenario.ann) 5%Z eq_refl eq_refl)
      as [Hmany _]; [repeat constructor |].
    destruct Hmany as (shadows & Hlen & Hitems & Hcalls & _);
      [vm_compute; constructor |].
    destruct shadows as [|shadow [|]]; try discriminate Hlen.
    destruct (Hcalls None) as (main & Hr & _ & Hitem & _).
    exists main, shadow. split; [exact Hr |]. split; [exact Hitem |].
    destruct (Hitems 0 (AttributeMetadata.mk "email" None)
                (JStr "ann@example.com") eq_refl eq_refl)
      as (_ & shadow' & [= <-] & Hshadow & _).
    exact Hshadow.
  - destruct (put_returns_entity_and_shadow_puts
                (connection := Scenario.connection)
                (_expressionBuilder := SpecModel.expressionBuilder)
                (base := Scenario.base) (helpers := SpecModel.helpers)
                (generator := SpecModel.clock)
                Scenario.bob (SpecModel.metadata Scenario.User)
                (Entity.fields Scenario.bob) 5%Z eq_refl eq_refl)
      as [_ Hnone]; [constructor |].
    destruct (Hnone eq_refl None) as (main & Hr & Hitem & _).
    exists main. split; assumption.
Defined.

Lemma put_condition_by_overwrite_option_witness :
  let notExists :=
    buildConditionExpression (ExpressionBuilder := SpecModel.expressionBuilder)
      (attributeNotExist "PK") in
  (exists r main shadow w',
     Scenario.put Scenario.ann None 5%Z = (Ok r, w') /\
     mainPut r = Some main /\ shadowPuts r = [shadow] /\
     PutItemInput.Condition main = Some notExists /\
     PutItemInput.Condition shadow = Some notExists) /\
  (exists r main shadow w',
     Scenario.put Scenario.ann (Some {| overwriteIfExists := true |}) 5%Z
       = (Ok r, w') /\
     mainPut r = Some main /\ shadowPuts r = [shadow] /\
     PutItemInput.Condition main = None /\
     PutItemInput.Condition shadow = Some notExists).
Proof.
  assert (Hu : Forall (fun value => truthy value = true)
                 (uniqueValues (generator := SpecModel.clock) Scenario.ann
                    (getUniqueAttributesForEntity
                       (Connection := Scenario.connection)
                       (Entity.constructor Scenario.ann)) 5%Z).1).
  { repeat constructor. }
  intros notExists. split.
  - destruct (put_condition_by_overwrite_option
                (connection := Scenario.connection)
                (_expressionBuilder := SpecModel.expressionBuilder)
                (base := Scenario.base) (helpers := SpecModel.helpers)
                (generator := SpecModel.clock)
                Scenario.ann None (SpecModel.metadata Scenario.Member)
                (Entity.fields Scenario.ann) 5%Z eq_refl eq_refl Hu)
      as (r & main & w' & Hr & Hmain & Hdefault & _ & Hlen & Hshadows).
    destruct (shadowPuts r) as [|shadow [|]] eqn:Hs; try discriminate Hlen.
    exists r, main, shadow, w'. repeat split; try assumption.
    + apply Hdefault. left. reflexivity.
    + inversion Hshadows; assumption.
  - destruct (put_condition_by_overwrite_option
                (connection := Scenario.connection)
                (_expressionBuilder := SpecModel.expressionBuilder)
                (base := Scenario.base) (helpers := SpecModel.helpers)
                (generator := SpecModel.clock)
                Scenario.ann (Some {| overwriteIfExists := true |})
                (SpecModel.metadata Scenario.Member)
                (Entity.fields Scenario.ann) 5%Z eq_refl eq_refl Hu)
      as (r & main & w' & Hr & Hmain & _ & Htrue & Hlen & Hshadows).
    destruct (shadowPuts r) as [|shadow [|]] eqn:Hs; try discriminate Hlen.
    exists r, main, shadow, w'. repeat split; try assumption.
    + apply Htrue. reflexivity.
    + inversion Hshadows; assumption.
Defined.


Lemma query_flat_table_rejects_options_without_key_condition_witness :
  Scenario.query "Counter" Scenario.idOne (Some Scenario.limitOnly) =
    Err (UnsupportedSortKeyConditionError "flat-table").
Proof.
  apply (query_flat_table_rejects_options_without_key_condition
           (connection := Scenario.connection)
           (_expressionBuilder := SpecModel.expressionBuilder)
           (helpers := SpecModel.helpers)
           "Counter" Scenario.idOne Scenario.limitOnly
           (SpecModel.metadata Scenario.Counter) (JStr "COUNTER#1"));
    vm_compute; reflexivity.
Defined.

Lemma update_applies_falsy_unique_attribute_witness :
  Scenario.update "Member" Scenario.idOne Scenario.clearEmail None 5%Z =
    (Ok (UpdateItemInput.mk "test-table"
           (<[ "SK" := JStr "MEMBER#1" ]> {[ "PK" := JStr "MEMBER#1" ]})
           (buildUpdateExpression
              (ExpressionBuilder := SpecModel.expressionBuilder)
              (spread (spread Scenario.clearEmail {[ "updatedAt" := JNum 5 ]}) ∅))
           ALL_NEW), 6%Z) /\
  spread Scenario.clearEmail {[ "updatedAt" := JNum 5 ]} !! "email"
    = Some (JStr "").
Proof.
  apply (update_applies_falsy_unique_attribute
           (connection := Scenario.connection)
           (_expressionBuilder := SpecModel.expressionBuilder)
           (base := Scenario.base) (generator := SpecModel.clock)
           "Member" Scenario.idOne Scenario.clearEmail None
           (SpecModel.metadata Scenario.Member)
           (<[ "SK" := JStr "MEMBER#1" ]> {[ "PK" := JStr "MEMBER#1" ]})
           5%Z (AttributeMetadata.mk "email" None) (JStr "")
           {[ "updatedAt" := JNum 5 ]} 6%Z ∅);
    try (vm_compute; reflexivity).
  - left.
  - repeat constructor.
Defined.

Lemma update_misses_falsy_key_collision_witness :
  let generated :=
    generateAll (generator := SpecModel.clock)
      [AutoGeneratedAttributeMetadata.mk "updatedAt" TIMESTAMP] ∅ 5%Z in
  Scenario.update "Reading" Scenario.readingAtZero Scenario.newValue None 5%Z =
    (Ok (UpdateItemInput.mk "test-table"
           (<[ "SK" := JStr "AT#0" ]> {[ "PK" := JStr "SENSOR#7" ]})
           (buildUpdateExpression
              (ExpressionBuilder := SpecModel.expressionBuilder)
              (spread (spread Scenario.newValue generated.1) ∅))
           ALL_NEW), generated.2) /\
  is_Some (spread Scenario.newValue generated.1 !! "updatedAt").
Proof.
  apply (update_misses_falsy_key_collision
           (connection := Scenario.connection)
           (_expressionBuilder := SpecModel.expressionBuilder)
           (base := Scenario.base) (generator := SpecModel.clock)
           "Reading" Scenario.readingAtZero Scenario.newValue None
           (SpecModel.metadata Scenario.Reading)
           (<[ "SK" := JStr "AT#0" ]> {[ "PK" := JStr "SENSOR#7" ]})
           5%Z (AutoGeneratedAttributeMetadata.mk "updatedAt" TIMESTAMP)
           (JNum 0) ∅);
    try (vm_compute; reflexivity).
  - constructor.
  - left.
  - repeat constructor.
Defined.

Lemma key_condition_precedence_witness :
  exists clause,
    Scenario.query "User" Scenario.idOne
      (Some (queryOptionsOf (Some Scenario.threeOperators) None (Some DESC))) =
      Ok (QueryInput.mk "test-table" None None (Some false)
            (Some (buildKeyConditionExpression
                     (ExpressionBuilder := SpecModel.expressionBuilder)
                     (merge (equals "PK" (JStr "USER#1")) clause)))) /\
    (nonEmptyBetween Scenario.threeOperators = true ->
     clause = between "SK" (kcProp Scenario.threeOperators "BETWEEN")) /\
    (nonEmptyBetween Scenario.threeOperators = false ->
     truthy (kcProp Scenario.threeOperators "BEGINS_WITH") = true ->
     clause = beginsWith "SK" (kcProp Scenario.threeOperators "BEGINS_WITH")) /\
    (nonEmptyBetween Scenario.threeOperators = false ->
     truthy (kcProp Scenario.threeOperators "BEGINS_WITH") = false ->
     clause = addBaseOperatorCondition (firstKey Scenario.threeOperators) "SK"
                (kcProp Scenario.threeOperators
                        (firstKey Scenario.threeOperators))).
Proof.
  apply (key_condition_precedence
           (connection := Scenario.connection)
           (_expressionBuilder := SpecModel.expressionBuilder)
           (helpers := SpecModel.helpers)
           "User" Scenario.idOne
           (queryOptionsOf (Some Scenario.threeOperators) None (Some DESC))
           (SpecModel.metadata Scenario.User) None
           {| pk_name := "PK"; pk_value := JStr "USER#1" |} "SK"
           Scenario.threeOperators);
    try (vm_compute; reflexivity).
  discriminate.
Defined.


(** The key condition [{EQ: "a", BEGINS_WITH: ""}] holds a BEGINS_WITH and
    a scalar comparison; the clause built is the comparison. *)
Lemma empty_begins_with_loses_to_comparison :
  kcProp Scenario.eqAndEmptyPrefix "BEGINS_WITH" = JStr "" /\
  kcProp Scenario.eqAndEmptyPrefix "BETWEEN" = JUndefined /\
  sortKeyCondition "SK" Scenario.eqAndEmptyPrefix
    = addBaseOperatorCondition "EQ" "SK" (JStr "a") /\
  sortKeyCondition "SK" Scenario.eqAndEmptyPrefix
    <> beginsWith "SK" (kcProp Scenario.eqAndEmptyPrefix "BEGINS_WITH") /\
  Scenario.query "User" Scenario.idOne (Some Scenario.twoOperators) =
    Ok (QueryInput.mk "test-table" None None (Some true)
          (Some (buildKeyConditionExpression
                   (ExpressionBuilder := SpecModel.expressionBuilder)
                   (merge (equals "PK" (JStr "USER#1"))
                          (addBaseOperatorCondition "EQ" "SK" (JStr "a")))))).
Proof.
  split; [reflexivity |]. split; [reflexivity |]. split; [reflexivity |].
  split; [discriminate |]. vm_compute. reflexivity.
Qed.

(** * Further properties of the operations *)

Section Behaviour.
Context {World : Type}.
Context `{connection : Connection} `{_expressionBuilder : ExpressionBuilder}.
Context `{base : BaseTransformer} `{helpers : Helpers}.
Context `{generator : Generator World}.

(** *** Update *)

(** An update that returns has passed the metadata and the key checks. *)
Lemma toDynamoUpdateItem_inv entityClass primaryKey body options w request w' :
  toDynamoUpdateItem entityClass primaryKey body options w = (Ok request, w') ->
  exists metadata key,
    hasMetadata entityClass = true /\
    getEntityByTarget entityClass = Ok metadata /\
    getParsedPrimaryKey (EntityMetadata.table metadata)
      (Schema.primaryKey (EntityMetadata.schema metadata)) primaryKey = Ok key /\
    isEmptyObject key = false /\
    UpdateItemInput.Key request = key /\
    UpdateItemInput.TableName request
      = Table.name (EntityMetadata.table metadata) /\
    UpdateItemInput.ReturnValues request
      = default ALL_NEW (options ≫= returnValues).
Proof.
  intros H.
  destruct (hasMetadata entityClass) eqn:Hh.
  2: { unfold toDynamoUpdateItem in H. rewrite Hh in H. discriminate. }
  destruct (getEntityByTarget entityClass) as [metadata|e] eqn:Hm.
  2: { unfold toDynamoUpdateItem in H. rewrite Hh in H. cbv zeta in H.
       cbn [negb] in H. unfold mbind at 1, Op_bind, bindOp, liftR in H.
       rewrite Hm in H. discriminate. }
  destruct (getParsedPrimaryKey (EntityMetadata.table metadata)
              (Schema.primaryKey (EntityMetadata.schema metadata)) primaryKey)
    as [key|e] eqn:Hk.
  2: { unfold toDynamoUpdateItem in H. rewrite Hh in H. cbv zeta in H.
       cbn [negb] in H. unfold mbind at 1 2, Op_bind, bindOp, liftR in H.
       rewrite Hm, Hk in H. discriminate. }
  destruct (isEmptyObject key) eqn:He.
  { unfold toDynamoUpdateItem in H. rewrite Hh in H. cbv zeta in H.
    cbn [negb] in H. unfold mbind at 1 2, Op_bind, bindOp, liftR in H.
    rewrite Hm, Hk, He in H. discriminate. }
  rewrite (toDynamoUpdateItem_checked _ _ _ _ _ _ _ Hh Hm Hk He) in H.
  destruct (forEach _ _) as [[]|e]; [| discriminate].
  destruct (formatAutoUpdateAttributes _ _ _ w) as [[formatted|e] w''];
    [| discriminate].
  destruct (getAffectedIndexesForAttributes _ _ _) as [affected|e];
    [| discriminate].
  injection H as <- <-. exists metadata, key. repeat split; assumption.
Qed.

(** X1. Whenever [toDynamoUpdateItem] and [toDynamoGetItem] both return
    for the same entity class and primary-key input, the update request
    addresses the item the get request reads: the [Key] maps are the same.
    The update request names the table of the metadata, and its
    [ReturnValues] is the option given, [ALL_NEW] when none is. *)
Theorem update_addresses_the_item_get_reads
    entityClass primaryKey body options w request w' g metadata :
  toDynamoUpdateItem entityClass primaryKey body options w = (Ok request, w') ->
  toDynamoGetItem entityClass primaryKey = Ok g ->
  getEntityByTarget entityClass = Ok metadata ->
  UpdateItemInput.Key request = GetItemInput.Key g /\
  UpdateItemInput.TableName request = Table.name (EntityMetadata.table metadata) /\
  match options ≫= returnValues with
  | Some mode => UpdateItemInput.ReturnValues request = mode
  | None => UpdateItemInput.ReturnValues request = ALL_NEW
  end.
Proof.
  intros Hu Hg Hm.
  apply toDynamoUpdateItem_inv in Hu
    as (metadata' & key & _ & Hm' & Hk & _ & Hkey & Htable & Hrv).
  rewrite Hm in Hm'. injection Hm' as <-.
  split; [| split].
  - unfold toDynamoGetItem in Hg. rewrite Hm, bind_Ok in Hg.
    apply bind_inv in Hg as (t & _ & Hg). rewrite Hk, bind_Ok in Hg.
    destruct (isEmptyObject key); [discriminate |].
    injection Hg as <-. exact Hkey.
  - exact Htable.
  - rewrite Hrv. destruct (options ≫= returnValues); reflexivity.
Qed.

(** X2. When the key parser returns an empty key, the three point
    operations raise [PrimaryKeyUnresolvedError] instead of a request with
    an empty [Key]; the update does so before any unique attribute is
    looked at and before any value is generated. *)
Theorem empty_key_is_rejected entityClass primaryKey metadata tableName key :
  hasMetadata entityClass = true ->
  getEntityByTarget entityClass = Ok metadata ->
  getTableNameForEntity entityClass = Ok tableName ->
  getParsedPrimaryKey (EntityMetadata.table metadata)
      (Schema.primaryKey (EntityMetadata.schema metadata)) primaryKey = Ok key ->
  isEmptyObject key = true ->
  toDynamoGetItem entityClass primaryKey = Err PrimaryKeyUnresolvedError /\
  toDynamoDeleteItem entityClass primaryKey = Err PrimaryKeyUnresolvedError /\
  forall body options w,
    toDynamoUpdateItem entityClass primaryKey body options w
      = (Err PrimaryKeyUnresolvedError, w).
Proof.
  intros Hh Hm Ht Hk He. split; [| split].
  - unfold toDynamoGetItem. rewrite Hm, bind_Ok, Ht, bind_Ok, Hk, bind_Ok, He.
    reflexivity.
  - unfold toDynamoDeleteItem. rewrite Hm, bind_Ok. cbv zeta.
    rewrite Hk, bind_Ok, He. reflexivity.
  - intros body options w. unfold toDynamoUpdateItem. rewrite Hh. cbv zeta.
    cbn [negb]. unfold mbind at 1 2, Op_bind, bindOp, liftR.
    rewrite Hm, Hk, He. reflexivity.
Qed.

(** X3. A unique attribute with a truthy value in the update body is
    rejected before the auto-update attributes are processed: whatever
    these are, and even when one of them collides with the primary key,
    the error is [ImmutableUniqueAttributeError] and no value is drawn
    from the generator. *)
Theorem unique_rejection_precedes_generation
    entityClass primaryKey body options metadata key w :
  hasMetadata entityClass = true ->
  getEntityByTarget entityClass = Ok metadata ->
  getParsedPrimaryKey (EntityMetadata.table metadata)
      (Schema.primaryKey (EntityMetadata.schema metadata)) primaryKey = Ok key ->
  isEmptyObject key = false ->
  Exists (fun attr => truthy (prop body (AttributeMetadata.name attr)) = true)
         (getUniqueAttributesForEntity entityClass) ->
  toDynamoUpdateItem entityClass primaryKey body options w =
    (Err ImmutableUniqueAttributeError, w).
Proof.
  intros Hh Hm Hk He Hex.
  rewrite (toDynamoUpdateItem_checked _ _ _ _ _ _ _ Hh Hm Hk He).
  rewrite (rejectUniqueAttributes_some _ _ Hex). reflexivity.
Qed.

Lemma formatAutoUpdateAttributes_first_collision primaryKey clean attr rest acc w :
  Forall (fun attr =>
            truthy (prop primaryKey (AutoGeneratedAttributeMetadata.name attr))
            = false) clean ->
  truthy (prop primaryKey (AutoGeneratedAttributeMetadata.name attr)) = true ->
  formatAutoUpdateAttributes primaryKey (clean ++ attr :: rest)%list acc w =
    (Err (AutoGeneratedAttributeKeyCollisionError
            (AutoGeneratedAttributeMetadata.name attr)),
     (generateAll clean acc w).2).
Proof.
  intros Hclean Hattr. revert acc w.
  induction Hclean as [|a clean Ha _ IH]; intros acc w.
  - cbn [app formatAutoUpdateAttributes generateAll]. rewrite Hattr. reflexivity.
  - cbn [app formatAutoUpdateAttributes generateAll]. rewrite Ha.
    unfold mbind, Op_bind, bindOp, generate.
    destruct (autoGenerateValue _ w) as [v w1]. apply IH.
Qed.

(** X4. When auto-update attributes collide with the primary-key input,
    the error names the first one in the order of the metadata, and the
    update has by then drawn one value from the generator for every
    auto-update attribute before it: the failed call leaves the generator
    in the state after those draws. *)
Theorem collision_reports_first_and_keeps_draws
    entityClass primaryKey body options metadata key w clean attr rest :
  hasMetadata entityClass = true ->
  getEntityByTarget entityClass = Ok metadata ->
  getParsedPrimaryKey (EntityMetadata.table metadata)
      (Schema.primaryKey (EntityMetadata.schema metadata)) primaryKey = Ok key ->
  isEmptyObject key = false ->
  Forall (fun attr => truthy (prop body (AttributeMetadata.name attr)) = false)
         (getUniqueAttributesForEntity entityClass) ->
  getAutoUpdateAttributes entityClass = (clean ++ attr :: rest)%list ->
  Forall (fun attr =>
            truthy (prop primaryKey (AutoGeneratedAttributeMetadata.name attr))
            = false) clean ->
  truthy (prop primaryKey (AutoGeneratedAttributeMetadata.name attr)) = true ->
  toDynamoUpdateItem entityClass primaryKey body options w =
    (Err (AutoGeneratedAttributeKeyCollisionError
            (AutoGeneratedAttributeMetadata.name attr)),
     (generateAll clean ∅ w).2).
Proof.
  intros Hh Hm Hk He Hall Hsplit Hclean Hattr.
  rewrite (toDynamoUpdateItem_checked _ _ _ _ _ _ _ Hh Hm Hk He).
  rewrite (rejectUniqueAttributes_none _ _ Hall), Hsplit.
  rewrite (formatAutoUpdateAttributes_first_collision _ _ _ _ _ _ Hclean Hattr).
  reflexivity.
Qed.

(** X5. In an update that returns, the attributes handed to
    [buildUpdateExpression] are merged in a fixed order: an index
    attribute recomputed by [getAffectedIndexesForAttributes] wins over a
    generated value, which wins over the value of the body.  So a value
    the caller gives for an auto-update attribute never reaches the
    expression, and attributes nobody else sets are passed as given. *)
Theorem update_merge_order
    entityClass primaryKey body options metadata key w affected :
  hasMetadata entityClass = true ->
  getEntityByTarget entityClass = Ok metadata ->
  getParsedPrimaryKey (EntityMetadata.table metadata)
      (Schema.primaryKey (EntityMetadata.schema metadata)) primaryKey = Ok key ->
  isEmptyObject key = false ->
  Forall (fun attr => truthy (prop body (AttributeMetadata.name attr)) = false)
         (getUniqueAttributesForEntity entityClass) ->
  Forall (fun attr =>
            truthy (prop primaryKey (AutoGeneratedAttributeMetadata.name attr))
            = false) (getAutoUpdateAttributes entityClass) ->
  let generated := generateAll (getAutoUpdateAttributes entityClass) ∅ w in
  getAffectedIndexesForAttributes entityClass (spread body generated.1)
    (default "." (options ≫= nestedKeySeparator)) = Ok affected ->
  exists attributes request,
    toDynamoUpdateItem entityClass primaryKey body options w
      = (Ok request, generated.2) /\
    UpdateItemInput.Update request = buildUpdateExpression attributes /\
    (forall name,
       attributes !! name = mergedAttribute body generated.1 affected name) /\
    (forall attr,
       attr ∈ getAutoUpdateAttributes entityClass ->
       affected !! AutoGeneratedAttributeMetadata.name attr = None ->
       attributes !! AutoGeneratedAttributeMetadata.name attr
         = generated.1 !! AutoGeneratedAttributeMetadata.name attr /\
       is_Some (generated.1 !! AutoGeneratedAttributeMetadata.name attr)).
Proof.
  intros Hh Hm Hk He Hall Hnone generated Ha.
  destruct (update_merges_generated_values _ _ _ _ _ _ _ _
              Hh Hm Hk He Hall Hnone Ha) as [Hr Hg].
  fold generated in Hr, Hg.
  assert (Hlookup : forall name,
            spread (spread body generated.1) affected !! name
            = mergedAttribute body generated.1 affected name).
  { intros name. unfold spread, mergedAttribute.
    rewrite !lookup_union.
    destruct (affected !! name), (generated.1 !! name), (body !! name);
      reflexivity. }
  eexists _, _. split; [exact Hr |]. split; [reflexivity |].
  split; [exact Hlookup |].
  intros attr Hin Haff. destruct (Hg attr Hin) as [[v Hv] _].
  rewrite Hlookup. unfold mergedAttribute. rewrite Haff, Hv. eauto.
Qed.

(** *** Put *)

(** A put that returns has found its metadata, built its literal item and
    read a truthy value for every unique attribute. *)
Lemma toDynamoPutItem_inv entity options w r w' :
  toDynamoPutItem entity options w = (Ok r, w') ->
  exists metadata item,
    getEntityByTarget (Entity.constructor entity) = Ok metadata /\
    toDynamoEntity entity = Ok item /\
    Forall (fun value => truthy value = true)
           (uniqueValues entity
              (getUniqueAttributesForEntity (Entity.constructor entity)) w).1.
Proof.
  intros H.
  destruct (getEntityByTarget (Entity.constructor entity)) as [metadata|e] eqn:Hm.
  2: { unfold toDynamoPutItem in H.
       unfold mbind at 1, Op_bind, bindOp, liftR in H. rewrite Hm in H.
       discriminate. }
  destruct (toDynamoEntity entity) as [item|e] eqn:Hi.
  2: { unfold toDynamoPutItem in H.
       unfold mbind at 1 2, Op_bind, bindOp, liftR in H. rewrite Hm, Hi in H.
       discriminate. }
  rewrite (toDynamoPutItem_run _ _ _ _ _ Hm Hi) in H. cbv zeta in H.
  destruct (mapOp _ _ w) as [[shadows|e] w''] eqn:Hmap; [| discriminate].
  exists metadata, item. split; [reflexivity |]. split; [reflexivity |].
  eapply uniqueAttributePutItems_inv, Hmap.
Qed.

Lemma shadowPuts_of_put main shadows :
  shadowPuts (match shadows with
              | [] => SinglePut main
              | _ :: _ => PutList (main :: shadows)
              end) = shadows /\
  putItems (match shadows with
            | [] => SinglePut main
            | _ :: _ => PutList (main :: shadows)
            end) = main :: shadows.
Proof. destruct shadows; split; reflexivity. Qed.

(** X6. When a unique attribute has no truthy value, [toDynamoPutItem]
    returns no request at all, not even the entity's own put: it raises
    [MissingUniqueAttributeValueError] for the first such attribute in the
    order of the metadata, whatever the options, having read the value
    slots up to and including that attribute's. *)
Theorem put_reports_first_unresolved_unique_attribute
    entity options metadata item resolved attr rest w :
  getEntityByTarget (Entity.constructor entity) = Ok metadata ->
  toDynamoEntity entity = Ok item ->
  getUniqueAttributesForEntity (Entity.constructor entity)
    = (resolved ++ attr :: rest)%list ->
  Forall (fun value => truthy value = true) (uniqueValues entity resolved w).1 ->
  truthy (uniqueValue entity attr (uniqueValues entity resolved w).2).1 = false ->
  toDynamoPutItem entity options w =
    (Err (MissingUniqueAttributeValueError (AttributeMetadata.name attr)),
     (uniqueValue entity attr (uniqueValues entity resolved w).2).2).
Proof.
  intros Hm Hi Hsplit Hres Hattr.
  rewrite (toDynamoPutItem_run _ _ _ _ _ Hm Hi). cbv zeta. rewrite Hsplit.
  rewrite (uniqueAttributePutItems_first_unresolved _ _ _ _ _ _ _ Hres Hattr).
  reflexivity.
Qed.



(** X8. The slot is replaced by the entity's field only when the value
    read from it is [null] or [undefined]: a slot that yields another
    falsy value (zero, the empty string, [false]) makes the put fail with
    [MissingUniqueAttributeValueError], whatever the entity carries for
    the attribute. *)
Theorem put_fails_on_falsy_generated_value
    entity options metadata item resolved attr rest w :
  getEntityByTarget (Entity.constructor entity) = Ok metadata ->
  toDynamoEntity entity = Ok item ->
  getUniqueAttributesForEntity (Entity.constructor entity)
    = (resolved ++ attr :: rest)%list ->
  Forall (fun value => truthy value = true) (uniqueValues entity resolved w).1 ->
  let slot := slotValue attr (uniqueValues entity resolved w).2 in
  nullish slot.1 = false ->
  truthy slot.1 = false ->
  toDynamoPutItem entity options w =
    (Err (MissingUniqueAttributeValueError (AttributeMetadata.name attr)),
     slot.2).
Proof.
  intros Hm Hi Hsplit Hres slot Hn Hf.
  rewrite (toDynamoPutItem_run _ _ _ _ _ Hm Hi). cbv zeta. rewrite Hsplit.
  rewrite (uniqueAttributePutItems_first_unresolved _ _ _ _ _ _ _ Hres);
    [reflexivity |].
  unfold uniqueValue, coalesce. fold slot. rewrite Hn. exact Hf.
Qed.

Lemma shadows_name_table table name attrs values :
  Forall (fun request => PutItemInput.TableName request = Table.name table)
         (zip_with (shadowPut table name) attrs values).
Proof.
  revert values. induction attrs as [|attr attrs IH]; intros [|value values];
    cbn [zip_with]; constructor; [reflexivity | apply IH].
Qed.

(** X9. Every request a put returns, the entity's own and each shadow
    put, names the table of the entity's metadata, and there is one
    request more than the class has unique attributes. *)
Theorem put_requests_target_one_table entity options w r w' metadata :
  toDynamoPutItem entity options w = (Ok r, w') ->
  getEntityByTarget (Entity.constructor entity) = Ok metadata ->
  Forall (fun request =>
            PutItemInput.TableName request
            = Table.name (EntityMetadata.table metadata))
         (putItems r) /\
  length (putItems r)
    = S (length (getUniqueAttributesForEntity (Entity.constructor entity))).
Proof.
  intros Hput Hm.
  destruct (toDynamoPutItem_inv _ _ _ _ _ Hput)
    as (metadata' & item & Hm' & Hi & Hres).
  rewrite Hm in Hm'. injection Hm' as <-.
  rewrite (toDynamoPutItem_resolved _ options _ _ _ Hm Hi Hres) in Hput.
  injection Hput as <- _. rewrite (proj2 (shadowPuts_of_put _ _)).
  split.
  - constructor; [reflexivity | apply shadows_name_table].
  - cbn [length]. rewrite length_shadows. reflexivity.
Qed.

(** *** Query *)

(** A query that returns has found its metadata, its index and its
    partition key. *)
Lemma toDynamoQueryItem_returns entityClass attrs queryOptions request :
  toDynamoQueryItem entityClass attrs queryOptions = Ok request ->
  exists metadata indexToQuery parsed,
    getEntityByTarget entityClass = Ok metadata /\
    resolveIndexToQuery (EntityMetadata.table metadata)
      (EntityMetadata.schema metadata) attrs = Ok indexToQuery /\
    resolvePartitionKey (EntityMetadata.table metadata)
      (EntityMetadata.schema metadata) indexToQuery attrs = Ok parsed.
Proof.
  intros H. destruct (getEntityByTarget entityClass) as [metadata|e] eqn:Hm.
  - destruct (toDynamoQueryItem_inv _ _ _ _ _ Hm H) as (idx & parsed & Hi & Hp).
    exists metadata, idx, parsed. auto.
  - unfold toDynamoQueryItem in H. rewrite Hm in H. discriminate.
Qed.

Lemma kcProp_single op v k :
  kcProp [(op, v)] k = if String.eqb op k then v else JUndefined.
Proof. reflexivity. Qed.

Lemma clauseKey_sortKeyCondition sortKeyName kc :
  clauseKey (sortKeyCondition sortKeyName kc) = Some sortKeyName.
Proof.
  unfold sortKeyCondition.
  destruct (truthy (kcProp kc "BETWEEN") && truthy (jsLength (kcProp kc "BETWEEN")));
    [reflexivity |].
  destruct (truthy (kcProp kc "BEGINS_WITH")); reflexivity.
Qed.

(** X10. A requested index is validated before the partition key is
    parsed and before the options are looked at: an index the table does
    not have raises [IndexNotFoundOnTableError], whether or not the entity
    declares it; an index the table has and the entity does not declare
    raises [IndexNotFoundOnEntityError]. *)
Theorem query_rejects_unknown_index entityClass attrs queryOptions metadata q :
  getEntityByTarget entityClass = Ok metadata ->
  requestedIndex attrs = Some q ->
  let table := EntityMetadata.table metadata in
  let schema := EntityMetadata.schema metadata in
  (Table.getIndexByKey table q = None ->
   toDynamoQueryItem entityClass attrs queryOptions
     = Err (IndexNotFoundOnTableError q (Table.name table))) /\
  (is_Some (Table.getIndexByKey table q) ->
   matchingIndexOnEntity schema q = None ->
   toDynamoQueryItem entityClass attrs queryOptions
     = Err (IndexNotFoundOnEntityError q)).
Proof.
  intros Hm Hq table schema. split.
  - intros Hnone. unfold toDynamoQueryItem. rewrite Hm, bind_Ok. cbv zeta.
    fold table schema. unfold resolveIndexToQuery. rewrite Hq, Hnone.
    reflexivity.
  - intros [idx Hidx] Hnone. unfold toDynamoQueryItem. rewrite Hm, bind_Ok.
    cbv zeta. fold table schema. unfold resolveIndexToQuery.
    rewrite Hq, Hidx, Hnone. reflexivity.
Qed.

(** X11. A [queryIndex] that is the empty string requests no index: the
    table is queried on its own partition key, no index is looked up, yet
    the request still carries the empty string as its [IndexName]. *)
Theorem empty_query_index_queries_the_table entityClass attrs metadata value :
  getEntityByTarget entityClass = Ok metadata ->
  attrs !! "queryIndex" = Some (JStr "") ->
  let table := EntityMetadata.table metadata in
  let schema := EntityMetadata.schema metadata in
  parseKey (Schema.primaryKey schema !! Table.partitionKey table) attrs
    = Ok value ->
  toDynamoQueryItem entityClass attrs None =
    Ok (QueryInput.mk (Table.name table) (Some "") None None
          (Some (buildKeyConditionExpression
                   (equals (Table.partitionKey table) value)))).
Proof.
  intros Hm Hq table schema Hv.
  assert (Hr : requestedIndex attrs = None).
  { unfold requestedIndex, queryIndex. rewrite Hq. reflexivity. }
  assert (Hi : resolveIndexToQuery table schema attrs = Ok None).
  { unfold resolveIndexToQuery. rewrite Hr. reflexivity. }
  assert (Hp : resolvePartitionKey table schema None attrs =
               Ok {| pk_name := Table.partitionKey table; pk_value := value |}).
  { unfold resolvePartitionKey. rewrite Hv. reflexivity. }
  rewrite (toDynamoQueryItem_resolved _ _ _ _ _ _ Hm Hi Hp).
  cbn [noQueryOptions]. unfold queryIndex. rewrite Hq. reflexivity.
Qed.

(** X12. Options that hold a limit or an order and no key condition (or
    an empty one) turn a partition-only query that returns into a request
    without any key-condition expression: the partition-key equality of the
    partition-only request is dropped, not kept.  (The sort key has to be
    available: an index is requested or the table uses a composite key.) *)
Theorem options_without_key_condition_drop_the_partition_condition
    entityClass attrs options metadata partitionOnly :
  getEntityByTarget entityClass = Ok metadata ->
  toDynamoQueryItem entityClass attrs None = Ok partitionOnly ->
  isEmptyQueryOptions options = false ->
  keyCondition options = None \/ keyCondition options = Some [] ->
  (requestedIndex attrs = None ->
   Table.usesCompositeKey (EntityMetadata.table metadata) = true) ->
  is_Some (QueryInput.KeyConditionExpression partitionOnly) /\
  toDynamoQueryItem entityClass attrs (Some options) =
    Ok (QueryInput.mk (QueryInput.TableName partitionOnly)
          (QueryInput.IndexName partitionOnly)
          (limit options) (Some (scanIndexForward (orderBy options))) None).
Proof.
  intros Hm H0 Hne Hkc Hsort.
  destruct (toDynamoQueryItem_inv _ _ _ _ _ Hm H0) as (idx & parsed & Hi & Hp).
  rewrite (toDynamoQueryItem_resolved _ _ _ _ _ _ Hm Hi Hp) in H0.
  cbn [noQueryOptions] in H0. injection H0 as <-.
  split; [cbn; eauto |].
  rewrite (toDynamoQueryItem_resolved _ _ _ _ _ _ Hm Hi Hp).
  cbn [noQueryOptions]. rewrite Hne.
  assert (Hs : exists sk,
             resolveSortKeyName (EntityMetadata.table metadata) idx = Ok sk).
  { pose proof (resolveIndexToQuery_inv _ _ _ _ Hi) as Hidx.
    destruct idx as [i|]; [eexists; reflexivity |].
    specialize (Hsort Hidx). unfold Table.usesCompositeKey in Hsort.
    unfold resolveSortKeyName.
    destruct (Table.sortKey (EntityMetadata.table metadata));
      [eexists; reflexivity | discriminate]. }
  destruct Hs as [sk ->]. cbn [mbind option_bind QueryInput.TableName
                                 QueryInput.IndexName].
  destruct Hkc as [-> | ->]; reflexivity.
Qed.

(** X13. A query with options scans backwards exactly when the order is
    DESC (an absent order scans forwards) and passes the limit through; a
    query without options sets neither a limit nor a scan direction. *)
Theorem scan_direction_and_limit entityClass attrs queryOptions request :
  toDynamoQueryItem entityClass attrs queryOptions = Ok request ->
  match queryOptions with
  | Some options =>
      if isEmptyQueryOptions options
      then QueryInput.Limit request = None /\
           QueryInput.ScanIndexForward request = None
      else QueryInput.Limit request = limit options /\
           (QueryInput.ScanIndexForward request = Some false <->
            orderBy options = Some DESC) /\
           (QueryInput.ScanIndexForward request = Some true <->
            orderBy options <> Some DESC)
  | None =>
      QueryInput.Limit request = None /\
      QueryInput.ScanIndexForward request = None
  end.
Proof.
  intros H.
  destruct (toDynamoQueryItem_returns _ _ _ _ H)
    as (metadata & idx & parsed & Hm & Hi & Hp).
  rewrite (toDynamoQueryItem_resolved _ _ _ _ _ _ Hm Hi Hp) in H.
  destruct queryOptions as [options|]; cbn [noQueryOptions] in H.
  - destruct (isEmptyQueryOptions options).
    + injection H as <-. split; reflexivity.
    + destruct (resolveSortKeyName _ idx); [| discriminate].
      injection H as <-. cbn [QueryInput.Limit QueryInput.ScanIndexForward
                                mbind option_bind].
      split; [reflexivity |].
      destruct (orderBy options) as [[]|]; cbn [scanIndexForward];
        split; split; congruence.
  - injection H as <-. split; reflexivity.
Qed.

(** X14. When a key condition is given, the request's key condition is
    the merge of two clauses: the first on the partition key, the second
    on the sort key, which is the sort key of the requested index, be it
    local or global, or the table's own sort key when no index is
    requested. *)
Theorem sort_clause_is_on_the_sort_key_of_the_index
    entityClass attrs options metadata request kc :
  getEntityByTarget entityClass = Ok metadata ->
  toDynamoQueryItem entityClass attrs (Some options) = Ok request ->
  keyCondition options = Some kc ->
  kc <> [] ->
  let table := EntityMetadata.table metadata in
  exists partition clause sortKeyName,
    QueryInput.KeyConditionExpression request
      = Some (buildKeyConditionExpression (merge partition clause)) /\
    is_Some (clauseKey partition) /\
    clauseKey clause = Some sortKeyName /\
    match requestedIndex attrs with
    | None => Table.sortKey table = Some sortKeyName
    | Some q =>
        IndexOptions.sortKey <$> Table.getIndexByKey table q = Some sortKeyName
    end.
Proof.
  intros Hm H Hkc Hne table.
  destruct (toDynamoQueryItem_inv _ _ _ _ _ Hm H) as (idx & parsed & Hi & Hp).
  rewrite (toDynamoQueryItem_resolved _ _ _ _ _ _ Hm Hi Hp) in H.
  cbn [noQueryOptions] in H.
  rewrite (keyCondition_not_empty _ _ Hkc) in H. fold table in H.
  destruct (resolveSortKeyName table idx) as [sk|e] eqn:Hs; [| discriminate].
  injection H as <-. cbn [mbind option_bind]. rewrite Hkc.
  destruct kc as [|first kc]; [congruence |]. cbn [isEmptyKeyCondition].
  eexists _, _, sk. split; [reflexivity |]. split; [cbn; eauto |].
  split; [apply clauseKey_sortKeyCondition |].
  pose proof (resolveIndexToQuery_inv _ _ _ _ Hi) as Hidx. fold table in Hidx.
  unfold resolveSortKeyName in Hs. destruct idx as [i|].
  - destruct Hidx as (q & templates & -> & Hg & _). rewrite Hg.
    injection Hs as <-. reflexivity.
  - rewrite Hidx. destruct (Table.sortKey table); [| discriminate].
    injection Hs as <-. reflexivity.
Qed.

(** X15. A key condition with a single operator gives the clause of that
    operator: BETWEEN with a non-empty array gives [between], BEGINS_WITH
    with a truthy value gives [beginsWith], any other operator is passed
    with its value to [addBaseOperatorCondition].  A BEGINS_WITH whose
    value is not truthy (the empty string) is passed to
    [addBaseOperatorCondition] too, under the operator name
    [BEGINS_WITH]. *)
Theorem single_operator_clause
    entityClass attrs options metadata request operator value :
  getEntityByTarget entityClass = Ok metadata ->
  toDynamoQueryItem entityClass attrs (Some options) = Ok request ->
  keyCondition options = Some [(operator, value)] ->
  exists partition clause sortKeyName,
    QueryInput.KeyConditionExpression request
      = Some (buildKeyConditionExpression (merge partition clause)) /\
    (forall first items,
       operator = "BETWEEN" -> value = JArr (first :: items) ->
       clause = between sortKeyName value) /\
    (operator = "BEGINS_WITH" -> truthy value = true ->
     clause = beginsWith sortKeyName value) /\
    (operator = "BEGINS_WITH" -> truthy value = false ->
     clause = addBaseOperatorCondition "BEGINS_WITH" sortKeyName value) /\
    (operator <> "BETWEEN" -> operator <> "BEGINS_WITH" ->
     clause = addBaseOperatorCondition operator sortKeyName value).
Proof.
  intros Hm H Hkc.
  destruct (toDynamoQueryItem_inv _ _ _ _ _ Hm H) as (idx & parsed & Hi & Hp).
  rewrite (toDynamoQueryItem_resolved _ _ _ _ _ _ Hm Hi Hp) in H.
  cbn [noQueryOptions] in H.
  rewrite (keyCondition_not_empty _ _ Hkc) in H.
  destruct (resolveSortKeyName _ idx) as [sk|e]; [| discriminate].
  injection H as <-. cbn [mbind option_bind]. rewrite Hkc.
  cbn [isEmptyKeyCondition].
  eexists _, _, sk. split; [reflexivity |].
  unfold sortKeyCondition. rewrite !kcProp_single. cbn [firstKey].
  split; [| split; [| split]].
  - intros first items -> ->. reflexivity.
  - intros -> Hv. cbn [String.eqb Ascii.eqb Bool.eqb andb truthy]. 
    change (String.eqb "BEGINS_WITH" "BETWEEN") with false.
    change (String.eqb "BEGINS_WITH" "BEGINS_WITH") with true.
    cbn [truthy andb]. rewrite Hv. reflexivity.
  - intros -> Hv.
    change (String.eqb "BEGINS_WITH" "BETWEEN") with false.
    change (String.eqb "BEGINS_WITH" "BEGINS_WITH") with true.
    cbn [truthy andb]. rewrite Hv. reflexivity.
  - intros Hb Hw.
    apply String.eqb_neq in Hb. apply String.eqb_neq in Hw.
    rewrite Hb, Hw, String.eqb_refl. reflexivity.
Qed.

End Behaviour.

(** * The operations and the generator *)

Section Generation.
Context {World : Type}.
Context `{connection : Connection} `{_expressionBuilder : ExpressionBuilder}.
Context `{base : BaseTransformer} `{helpers : Helpers}.
Context `{generator : Generator World}.









End Generation.



(** The same token put at two states of the generator: the value of its
    auto-generated unique attribute is read afresh, and the keys of the
    two shadow puts differ. *)
Example put_shadow_key_varies_with_generator :
  (PutItemInput.Item <$> shadowPuts
     match (Scenario.catalogPut Scenario.tokenOne None 5%Z).1 with
     | Ok r => r
     | Err _ => PutList []
     end) <>
  (PutItemInput.Item <$> shadowPuts
     match (Scenario.catalogPut Scenario.tokenOne None 6%Z).1 with
     | Ok r => r
     | Err _ => PutList []
     end).
Proof.
  intros H.
  apply (f_equal (fun items =>
           match items with
           | item :: _ => prop item "PK"
           | [] => JUndefined
           end)) in H.
  vm_compute in H. discriminate.
Qed.

(** * The further properties on the registered entities *)

Lemma update_addresses_the_item_get_reads_witness :
  exists request g,
    Scenario.catalogUpdate "Member" Scenario.idOne Scenario.rename None 5%Z
      = (Ok request, 6%Z) /\
    Scenario.catalogGet "Member" Scenario.idOne = Ok g /\
    UpdateItemInput.Key request = GetItemInput.Key g /\
    UpdateItemInput.TableName request = "test-table" /\
    UpdateItemInput.ReturnValues request = ALL_NEW.
Proof.
  eexists _, _. split; [vm_compute; reflexivity |].
  split; [vm_compute; reflexivity |].
  eapply (update_addresses_the_item_get_reads
            (connection := Scenario.catalogConnection)
            (_expressionBuilder := SpecModel.expressionBuilder)
            (base := Scenario.catalogBase) (generator := SpecModel.clock)
            "Member" Scenario.idOne Scenario.rename None 5%Z _ 6%Z _
            (SpecModel.metadata Scenario.Member));
    vm_compute; reflexivity.
Defined.

Lemma empty_key_is_rejected_witness :
  Scenario.catalogGet "Draft" Scenario.idOne = Err PrimaryKeyUnresolvedError /\
  Scenario.catalogDelete "Draft" Scenario.idOne = Err PrimaryKeyUnresolvedError /\
  Scenario.catalogUpdate "Draft" Scenario.idOne Scenario.rename None 5%Z
    = (Err PrimaryKeyUnresolvedError, 5%Z).
Proof.
  destruct (empty_key_is_rejected
              (World := Z)
              (connection := Scenario.catalogConnection)
              (_expressionBuilder := SpecModel.expressionBuilder)
              (base := Scenario.catalogBase) (generator := SpecModel.clock)
              "Draft" Scenario.idOne (SpecModel.metadata Scenario.Draft)
              "test-table" ∅)
    as (Hget & Hdelete & Hupdate); try (vm_compute; reflexivity).
  split; [exact Hget |]. split; [exact Hdelete | apply Hupdate].
Defined.

Lemma unique_rejection_precedes_generation_witness :
  truthy (prop Scenario.auditKey "updatedAt") = true /\
  Scenario.catalogUpdate "Audit" Scenario.auditKey Scenario.newEmail None 5%Z
    = (Err ImmutableUniqueAttributeError, 5%Z).
Proof.
  split; [reflexivity |].
  apply (unique_rejection_precedes_generation
           (connection := Scenario.catalogConnection)
           (_expressionBuilder := SpecModel.expressionBuilder)
           (base := Scenario.catalogBase) (generator := SpecModel.clock)
           "Audit" Scenario.auditKey Scenario.newEmail None
           (SpecModel.metadata Scenario.Audit)
           (<[ "SK" := JStr "AT#1700000000" ]> {[ "PK" := JStr "AUDIT#1" ]})
           5%Z);
    try (vm_compute; reflexivity).
  repeat constructor.
Defined.

Lemma collision_reports_first_and_keeps_draws_witness :
  Scenario.catalogUpdate "Audit" Scenario.auditKey Scenario.rename None 5%Z
    = (Err (AutoGeneratedAttributeKeyCollisionError "updatedAt"), 6%Z).
Proof.
  apply (collision_reports_first_and_keeps_draws
           (connection := Scenario.catalogConnection)
           (_expressionBuilder := SpecModel.expressionBuilder)
           (base := Scenario.catalogBase) (generator := SpecModel.clock)
           "Audit" Scenario.auditKey Scenario.rename None
           (SpecModel.metadata Scenario.Audit)
           (<[ "SK" := JStr "AT#1700000000" ]> {[ "PK" := JStr "AUDIT#1" ]})
           5%Z
           [AutoGeneratedAttributeMetadata.mk "revision" UUID]
           (AutoGeneratedAttributeMetadata.mk "updatedAt" TIMESTAMP) []);
    try (vm_compute; reflexivity).
  - repeat constructor.
  - repeat constructor.
Defined.

Lemma update_merge_order_witness :
  exists attributes request,
    Scenario.catalogUpdate "Member" Scenario.idOne Scenario.renameAndStamp
      None 5%Z = (Ok request, 6%Z) /\
    UpdateItemInput.Update request =
      buildUpdateExpression (ExpressionBuilder := SpecModel.expressionBuilder)
        attributes /\
    Scenario.renameAndStamp !! "updatedAt" = Some (JNum 1) /\
    attributes !! "updatedAt" = Some (JNum 5) /\
    attributes !! "name" = Some (JStr "Anna").
Proof.
  destruct (update_merge_order
              (connection := Scenario.catalogConnection)
              (_expressionBuilder := SpecModel.expressionBuilder)
              (base := Scenario.catalogBase) (generator := SpecModel.clock)
              "Member" Scenario.idOne Scenario.renameAndStamp None
              (SpecModel.metadata Scenario.Member)
              (<[ "SK" := JStr "MEMBER#1" ]> {[ "PK" := JStr "MEMBER#1" ]})
              5%Z ∅)
    as (attributes & request & Hr & Hu & Hlookup & _);
    try (vm_compute; reflexivity); try (repeat constructor).
  exists attributes, request. split; [exact Hr |]. split; [exact Hu |].
  split; [reflexivity |].
  split; rewrite Hlookup; vm_compute; reflexivity.
Defined.

Lemma put_reports_first_unresolved_unique_attribute_witness :
  Scenario.catalogPut Scenario.badgeWithoutSerial None 5%Z
    = (Err (MissingUniqueAttributeValueError "serial"), 6%Z).
Proof.
  apply (put_reports_first_unresolved_unique_attribute
           (connection := Scenario.catalogConnection)
           (_expressionBuilder := SpecModel.expressionBuilder)
           (base := Scenario.catalogBase) (helpers := SpecModel.helpers)
           (generator := SpecModel.clock)
           Scenario.badgeWithoutSerial None
           (SpecModel.metadata Scenario.Badge)
           (Entity.fields Scenario.badgeWithoutSerial)
           [AttributeMetadata.mk "code" (Some UUID)]
           (AttributeMetadata.mk "serial" None) [] 5%Z);
    try (vm_compute; reflexivity).
  repeat constructor.
Defined.


Lemma put_fails_on_falsy_generated_value_witness :
  prop (Entity.fields Scenario.ticketSeven) "number" = JNum 7 /\
  Scenario.catalogPut Scenario.ticketSeven None 0%Z
    = (Err (MissingUniqueAttributeValueError "number"), 1%Z).
Proof.
  split; [reflexivity |].
  apply (put_fails_on_falsy_generated_value
           (connection := Scenario.catalogConnection)
           (_expressionBuilder := SpecModel.expressionBuilder)
           (base := Scenario.catalogBase) (helpers := SpecModel.helpers)
           (generator := SpecModel.clock)
           Scenario.ticketSeven None
           (SpecModel.metadata Scenario.Ticket)
           (Entity.fields Scenario.ticketSeven)
           [] (AttributeMetadata.mk "number" (Some TIMESTAMP)) [] 0%Z);
    try (vm_compute; reflexivity).
  constructor.
Defined.

Lemma put_requests_target_one_table_witness :
  exists r,
    Scenario.catalogPut Scenario.ann None 5%Z = (Ok r, 5%Z) /\
    Forall (fun request => PutItemInput.TableName request = "test-table")
           (putItems r) /\
    length (putItems r) = 2.
Proof.
  eexists. split; [vm_compute; reflexivity |].
  apply (put_requests_target_one_table
           (connection := Scenario.catalogConnection)
           (_expressionBuilder := SpecModel.expressionBuilder)
           (base := Scenario.catalogBase) (helpers := SpecModel.helpers)
           (generator := SpecModel.clock)
           Scenario.ann None 5%Z _ 5%Z (SpecModel.metadata Scenario.Member));
    vm_compute; reflexivity.
Defined.

Lemma query_rejects_unknown_index_witness :
  matchingIndexOnEntity
    (EntityMetadata.schema (SpecModel.metadata Scenario.Stray)) "GSI2"
    = Some {[ "GSI2PK" := "STRAY#{{kind}}" ]} /\
  Scenario.catalogQuery "Stray" Scenario.kindOnGSI2 None
    = Err (IndexNotFoundOnTableError "GSI2" "test-table") /\
  Scenario.catalogQuery "Stray" Scenario.kindOnGSI1 (Some Scenario.lastTen)
    = Err (IndexNotFoundOnEntityError "GSI1").
Proof.
  split; [vm_compute; reflexivity |]. split.
  - apply (query_rejects_unknown_index
             (connection := Scenario.catalogConnection)
             (_expressionBuilder := SpecModel.expressionBuilder)
             (helpers := SpecModel.helpers)
             "Stray" Scenario.kindOnGSI2 None
             (SpecModel.metadata Scenario.Stray) "GSI2");
      vm_compute; reflexivity.
  - apply (query_rejects_unknown_index
             (connection := Scenario.catalogConnection)
             (_expressionBuilder := SpecModel.expressionBuilder)
             (helpers := SpecModel.helpers)
             "Stray" Scenario.kindOnGSI1 (Some Scenario.lastTen)
             (SpecModel.metadata Scenario.Stray) "GSI1");
      try (vm_compute; reflexivity).
    vm_compute. eauto.
Defined.

Lemma empty_query_index_queries_the_table_witness :
  Scenario.catalogQuery "User" Scenario.idOneOnNoIndex None =
    Ok (QueryInput.mk "test-table" (Some "") None None
          (Some (buildKeyConditionExpression
                   (ExpressionBuilder := SpecModel.expressionBuilder)
                   (equals "PK" (JStr "USER#1"))))).
Proof.
  apply (empty_query_index_queries_the_table
           (connection := Scenario.catalogConnection)
           (_expressionBuilder := SpecModel.expressionBuilder)
           (helpers := SpecModel.helpers)
           "User" Scenario.idOneOnNoIndex
           (SpecModel.metadata Scenario.User) (JStr "USER#1"));
    vm_compute; reflexivity.
Defined.

Lemma options_without_key_condition_drop_the_partition_condition_witness :
  exists partitionOnly,
    Scenario.catalogQuery "User" Scenario.idOne None = Ok partitionOnly /\
    is_Some (QueryInput.KeyConditionExpression partitionOnly) /\
    Scenario.catalogQuery "User" Scenario.idOne (Some Scenario.lastTen) =
      Ok (QueryInput.mk "test-table" None (Some 10%Z) (Some false) None).
Proof.
  eexists. split; [vm_compute; reflexivity |].
  eapply (options_without_key_condition_drop_the_partition_condition
            (connection := Scenario.catalogConnection)
            (_expressionBuilder := SpecModel.expressionBuilder)
            (helpers := SpecModel.helpers)
            "User" Scenario.idOne Scenario.lastTen
            (SpecModel.metadata Scenario.User));
    try (vm_compute; reflexivity).
  left. reflexivity.
Defined.

(** Options whose only key has the value [undefined] are options: the
    request has a scan direction, and no key condition. *)
Example undefined_limit_is_an_option :
  Scenario.catalogQuery "User" Scenario.idOne (Some Scenario.undefinedLimit)
    = Ok (QueryInput.mk "test-table" None None (Some true) None) /\
  Scenario.catalogQuery "Counter" Scenario.idOne (Some Scenario.undefinedLimit)
    = Err (UnsupportedSortKeyConditionError "flat-table").
Proof. split; vm_compute; reflexivity. Qed.

Lemma scan_direction_and_limit_witness :
  exists request,
    Scenario.catalogQuery "User" Scenario.idOne (Some Scenario.lastTen)
      = Ok request /\
    QueryInput.Limit request = Some 10%Z /\
    QueryInput.ScanIndexForward request = Some false.
Proof.
  eexists. split; [vm_compute; reflexivity |].
  destruct (scan_direction_and_limit
              (connection := Scenario.catalogConnection)
              (_expressionBuilder := SpecModel.expressionBuilder)
              (helpers := SpecModel.helpers)
              "User" Scenario.idOne (Some Scenario.lastTen) _
              ltac:(vm_compute; reflexivity))
    as (Hlimit & Hback & _).
  split; [exact Hlimit | apply Hback; reflexivity].
Defined.

Lemma sort_clause_is_on_the_sort_key_of_the_index_witness :
  exists request partition clause,
    Scenario.catalogQuery "User" Scenario.activeOnGSI1 (Some Scenario.prefixA)
      = Ok request /\
    QueryInput.KeyConditionExpression request
      = Some (buildKeyConditionExpression
                (ExpressionBuilder := SpecModel.expressionBuilder)
                (merge partition clause)) /\
    clauseKey clause = Some "GSI1SK".
Proof.
  eexists.
  assert (H : Scenario.catalogQuery "User" Scenario.activeOnGSI1
                (Some Scenario.prefixA) = Ok _) by (vm_compute; reflexivity).
  destruct (sort_clause_is_on_the_sort_key_of_the_index
              (connection := Scenario.catalogConnection)
              (_expressionBuilder := SpecModel.expressionBuilder)
              (helpers := SpecModel.helpers)
              "User" Scenario.activeOnGSI1 Scenario.prefixA
              (SpecModel.metadata Scenario.User) _
              [("BEGINS_WITH", JStr "USER#A")]
              eq_refl H eq_refl ltac:(discriminate))
    as (partition & clause & sortKeyName & Hkce & _ & Hkey & Hname).
  exists partition, clause. split; [exact H |]. split; [exact Hkce |].
  rewrite Hkey. vm_compute in Hname. symmetry. exact Hname.
Defined.

Lemma single_operator_clause_witness :
  exists request partition sortKeyName,
    Scenario.catalogQuery "User" Scenario.idOne (Some Scenario.prefixA)
      = Ok request /\
    QueryInput.KeyConditionExpression request
      = Some (buildKeyConditionExpression
                (ExpressionBuilder := SpecModel.expressionBuilder)
                (merge partition (beginsWith sortKeyName (JStr "USER#A")))).
Proof.
  eexists.
  assert (H : Scenario.catalogQuery "User" Scenario.idOne
                (Some Scenario.prefixA) = Ok _) by (vm_compute; reflexivity).
  destruct (single_operator_clause
              (connection := Scenario.catalogConnection)
              (_expressionBuilder := SpecModel.expressionBuilder)
              (helpers := SpecModel.helpers)
              "User" Scenario.idOne Scenario.prefixA
              (SpecModel.metadata Scenario.User) _
              "BEGINS_WITH" (JStr "USER#A")
              eq_refl H eq_refl)
    as (partition & clause & sortKeyName & Hkce & _ & Hprefix & _).
  exists partition, sortKeyName. split; [exact H |].
  rewrite Hkce, (Hprefix eq_refl eq_refl). reflexivity.
Defined.
